(** * HMAC request authentication (go-core-stack/auth)

    A shallow embedding of package [hash]: the signer ([AddAuthHeaders]) and
    the validator ([Validate]), together with the parts of the Go standard
    library they call ([crypto/sha256], [crypto/hmac], [encoding/hex], the
    header map of [net/http] and the RFC 3339 layout of package [time]);
    of package [client] up to the request it hands to its transport; and of
    [NewRoute] of package [model].

    The first part holds the definitions, the second what is proved of
    them: the library models are checked against known values, then come
    the properties the specification states (C1 to C10) and some it does
    not (X1 to X6). *)

From Stdlib Require Import ZArith NArith Lia.
From Stdlib.Strings Require Import Byte Ascii.
From stdpp Require Import gmap strings list.

Local Open Scope Z_scope.

(** ** Byte slices

    A Go [string] is a sequence of bytes, which is what [string] (a list of
    8-bit [ascii]) is; a [[]byte] is a [list byte]. *)

Fixpoint bytes_of_string (s : string) : list byte :=
  match s with
  | EmptyString => []
  | String c rest => byte_of_ascii c :: bytes_of_string rest
  end.

Definition byte_to_Z (b : byte) : Z := Z.of_N (Byte.to_N b).

Definition byte_of_Z (z : Z) : byte :=
  match Byte.of_N (Z.to_N (z mod 256)) with
  | Some b => b
  | None => x00
  end.

(** ** crypto/sha256 (FIPS 180-4), on 32-bit words held in [Z] *)

Module SHA256.

Definition mask32 : Z := 4294967295.

Definition add32 (x y : Z) : Z := Z.land (x + y) mask32.

Definition rotr (n x : Z) : Z :=
  Z.lor (Z.shiftr x n) (Z.land (Z.shiftl x (32 - n)) mask32).

Definition not32 (x : Z) : Z := Z.lxor x mask32.

Definition Ch (x y z : Z) : Z := Z.lxor (Z.land x y) (Z.land (not32 x) z).

Definition Maj (x y z : Z) : Z :=
  Z.lxor (Z.lxor (Z.land x y) (Z.land x z)) (Z.land y z).

Definition Sigma0 (x : Z) : Z := Z.lxor (Z.lxor (rotr 2 x) (rotr 13 x)) (rotr 22 x).
Definition Sigma1 (x : Z) : Z := Z.lxor (Z.lxor (rotr 6 x) (rotr 11 x)) (rotr 25 x).
Definition sigma0 (x : Z) : Z := Z.lxor (Z.lxor (rotr 7 x) (rotr 18 x)) (Z.shiftr x 3).
Definition sigma1 (x : Z) : Z := Z.lxor (Z.lxor (rotr 17 x) (rotr 19 x)) (Z.shiftr x 10).

(** The 64 round constants (the fractional parts of the cube roots of the
    first 64 primes), in decimal. *)
Definition K : list Z :=
  [
    1116352408; 1899447441; 3049323471; 3921009573;
    961987163; 1508970993; 2453635748; 2870763221;
    3624381080; 310598401; 607225278; 1426881987;
    1925078388; 2162078206; 2614888103; 3248222580;
    3835390401; 4022224774; 264347078; 604807628;
    770255983; 1249150122; 1555081692; 1996064986;
    2554220882; 2821834349; 2952996808; 3210313671;
    3336571891; 3584528711; 113926993; 338241895;
    666307205; 773529912; 1294757372; 1396182291;
    1695183700; 1986661051; 2177026350; 2456956037;
    2730485921; 2820302411; 3259730800; 3345764771;
    3516065817; 3600352804; 4094571909; 275423344;
    430227734; 506948616; 659060556; 883997877;
    958139571; 1322822218; 1537002063; 1747873779;
    1955562222; 2024104815; 2227730452; 2361852424;
    2428436474; 2756734187; 3204031479; 3329325298 ].

(** The eight working variables a..h, also the chaining value. *)
Record state : Type := State
  { sa : Z; sb : Z; sc : Z; sd : Z; se : Z; sf : Z; sg : Z; sh : Z }.

Definition init : state :=
  State 1779033703 3144134277 1013904242 2773480762
        1359893119 2600822924 528734635 1541459225.

(** Message schedule: [w] holds W(t-1), W(t-2), ... (most recent first). *)
Fixpoint schedule (n : nat) (w : list Z) : list Z :=
  match n with
  | O => w
  | S n' =>
      let wt := add32 (add32 (add32 (sigma1 (nth 1 w 0)) (nth 6 w 0))
                             (sigma0 (nth 14 w 0))) (nth 15 w 0) in
      schedule n' (wt :: w)
  end.

Definition round (s : state) (kw : Z * Z) : state :=
  let t1 := add32 (add32 (add32 (add32 (sh s) (Sigma1 (se s)))
                                (Ch (se s) (sf s) (sg s))) (fst kw)) (snd kw) in
  let t2 := add32 (Sigma0 (sa s)) (Maj (sa s) (sb s) (sc s)) in
  State (add32 t1 t2) (sa s) (sb s) (sc s) (add32 (sd s) t1) (se s) (sf s) (sg s).

Fixpoint be_words (n : nat) (bs : list Z) : list Z :=
  match n, bs with
  | S n', b0 :: b1 :: b2 :: b3 :: rest =>
      (b0 * 16777216 + b1 * 65536 + b2 * 256 + b3) :: be_words n' rest
  | _, _ => []
  end.

(** One 64-byte block. *)
Definition block (h : state) (blk : list Z) : state :=
  let w := rev (schedule 48 (rev (be_words 16 blk))) in
  let s := fold_left round (combine K w) h in
  State (add32 (sa h) (sa s)) (add32 (sb h) (sb s)) (add32 (sc h) (sc s))
        (add32 (sd h) (sd s)) (add32 (se h) (se s)) (add32 (sf h) (sf s))
        (add32 (sg h) (sg s)) (add32 (sh h) (sh s)).

Fixpoint blocks (n : nat) (h : state) (bs : list Z) : state :=
  match n with
  | O => h
  | S n' => blocks n' (block h (firstn 64 bs)) (skipn 64 bs)
  end.

Definition be_bytes (k : nat) (x : Z) : list Z :=
  map (fun i => Z.land (Z.shiftr x (8 * Z.of_nat i)) 255) (rev (seq 0 k)).

(** Padding: 0x80, zeros up to 56 mod 64, then the bit length on 8 bytes. *)
Definition pad (msg : list Z) : list Z :=
  let len := Z.of_nat (length msg) in
  msg ++ [128] ++ repeat 0 (Z.to_nat ((55 - len) mod 64))
      ++ be_bytes 8 ((8 * len) mod 18446744073709551616).

Definition digest (h : state) : list byte :=
  map byte_of_Z
      (concat (map (be_bytes 4)
                   [sa h; sb h; sc h; sd h; se h; sf h; sg h; sh h])).

Definition Sum256 (msg : list byte) : list byte :=
  let p := pad (map byte_to_Z msg) in
  digest (blocks (length p / 64)%nat init p).

Definition BlockSize : nat := 64.
Definition Size : nat := 32.

End SHA256.

(** ** crypto/hmac (RFC 2104) with SHA-256 *)

Definition xor_byte (c : Z) (b : byte) : byte := byte_of_Z (Z.lxor (byte_to_Z b) c).

(** [hmac.New(sha256.New, key)], [Write(msg)], [Sum(nil)]. *)
Definition hmac_SHA256 (key msg : list byte) : list byte :=
  let key' := if Nat.ltb SHA256.BlockSize (length key) then SHA256.Sum256 key else key in
  let k0 := key' ++ repeat x00 (SHA256.BlockSize - length key') in
  let ipad := map (xor_byte 54) k0 in
  let opad := map (xor_byte 92) k0 in
  SHA256.Sum256 (opad ++ SHA256.Sum256 (ipad ++ msg)).

(** [hmac.Equal] is [subtle.ConstantTimeCompare(a, b) == 1]: unequal lengths
    give 0 at once; otherwise every pair of bytes is XOR-ed into one
    accumulator, which is compared with zero at the end. *)
Fixpoint xor_accumulate (v : N) (a b : list byte) : N :=
  match a, b with
  | x :: a', y :: b' => xor_accumulate (N.lor v (N.lxor (Byte.to_N x) (Byte.to_N y))) a' b'
  | _, _ => v
  end.

Definition subtle_ConstantTimeCompare (a b : list byte) : Z :=
  if negb (Nat.eqb (length a) (length b)) then 0
  else if N.eqb (xor_accumulate 0%N a b) 0%N then 1 else 0.

Definition hmac_Equal (a b : list byte) : bool :=
  Z.eqb (subtle_ConstantTimeCompare a b) 1.

(** ** encoding/hex *)

Definition hextable : string := "0123456789abcdef".

Definition hex_digit (n : N) : ascii :=
  match String.get (N.to_nat n) hextable with
  | Some c => c
  | None => "0"%char
  end.

Fixpoint hex_EncodeToString (src : list byte) : string :=
  match src with
  | [] => EmptyString
  | b :: rest =>
      String (hex_digit (Byte.to_N b / 16)) (String (hex_digit (Byte.to_N b mod 16))
             (hex_EncodeToString rest))
  end.

(** [fromHexChar]: both cases of a..f are read. *)
Definition fromHexChar (c : ascii) : option N :=
  let n := N_of_ascii c in
  if (48 <=? n)%N && (n <=? 57)%N then Some (n - 48)%N
  else if (97 <=? n)%N && (n <=? 102)%N then Some (n - 97 + 10)%N
  else if (65 <=? n)%N && (n <=? 70)%N then Some (n - 65 + 10)%N
  else None.

(** [hex.DecodeString]: [None] stands for a non-nil error (a byte that is
    no hex digit, or an odd length). *)
Fixpoint hex_DecodeString (s : string) : option (list byte) :=
  match s with
  | EmptyString => Some []
  | String _ EmptyString => None
  | String p (String q rest) =>
      match fromHexChar p, fromHexChar q with
      | Some a, Some b =>
          match Byte.of_N (a * 16 + b), hex_DecodeString rest with
          | Some x, Some xs => Some (x :: xs)
          | _, _ => None
          end
      | _, _ => None
      end
  end.

(** ** The HMAC primitive of the package *)

(** [strings.Join(v, "")]. *)
Definition strings_Join (v : list string) : string :=
  fold_right String.append EmptyString v.

(** [generateSHA256HMAC(secret, v...)]: the raw HMAC of the joined fields. *)
Definition generateSHA256HMAC (secret : string) (v : list string) : list byte :=
  let raw := strings_Join v in
  hmac_SHA256 (bytes_of_string secret) (bytes_of_string raw).

(** [GenerateSHA256HMAC(secret, v...)]: the same, hex-encoded. *)
Definition GenerateSHA256HMAC (secret : string) (v : list string) : string :=
  hex_EncodeToString (generateSHA256HMAC secret v).



(** ** package time: instants, the proleptic Gregorian calendar, RFC 3339 *)

(** A [time.Time] as far as this package looks at it: the seconds since the
    Unix epoch ([t.Unix()]) and the offset, in seconds east of UTC, that the
    time's location has at that instant.  The sub-second part plays no role:
    the RFC 3339 layout does not print it and [Unix] drops it. *)
Record time_Time : Type := mkTime { unixSec : Z; zoneOffset : Z }.

Definition Unix (t : time_Time) : Z := unixSec t.

Module Calendar.

Definition isLeap (y : Z) : bool :=
  (y mod 4 =? 0) && (negb (y mod 100 =? 0) || (y mod 400 =? 0)).

(** Days from 0000-01-01 to the first of January of year [y]. *)
Definition daysBeforeYear (y : Z) : Z :=
  365 * y + (y + 3) / 4 - (y + 99) / 100 + (y + 399) / 400.

Definition daysBefore : list Z :=
  [0; 31; 59; 90; 120; 151; 181; 212; 243; 273; 304; 334; 365].

(** Days of year [y] before the first of month [m] (1..13). *)
Definition daysBeforeMonth (y m : Z) : Z :=
  nth (Z.to_nat (m - 1)) daysBefore 0 + (if isLeap y && (3 <=? m) then 1 else 0).

Definition daysIn (m y : Z) : Z :=
  if (m =? 2) && isLeap y then 29
  else nth (Z.to_nat m) daysBefore 0 - nth (Z.to_nat (m - 1)) daysBefore 0.

(** 1970-01-01, counted from 0000-01-01. *)
Definition epochDay : Z := 719528.

(** [Date(y, m, d, hh, mi, ss, 0, UTC).Unix()] for fields in their ranges. *)
Definition dateUnix (y m d hh mi ss : Z) : Z :=
  (daysBeforeYear y + daysBeforeMonth y m + (d - 1) - epochDay) * 86400
  + hh * 3600 + mi * 60 + ss.

(** The year a day (counted from 0000-01-01) falls in: the 400-year average
    gives an estimate that is off by at most one. *)
Definition yearOf (day : Z) : Z :=
  let y := (400 * day) / 146097 in
  if day <? daysBeforeYear y then y - 1
  else if daysBeforeYear (y + 1) <=? day then y + 1
  else y.

(** The month the [yday]-th day of year [y] (from 0) falls in. *)
Definition monthOf (y yday : Z) : Z :=
  if yday <? daysBeforeMonth y 2 then 1
  else if yday <? daysBeforeMonth y 3 then 2
  else if yday <? daysBeforeMonth y 4 then 3
  else if yday <? daysBeforeMonth y 5 then 4
  else if yday <? daysBeforeMonth y 6 then 5
  else if yday <? daysBeforeMonth y 7 then 6
  else if yday <? daysBeforeMonth y 8 then 7
  else if yday <? daysBeforeMonth y 9 then 8
  else if yday <? daysBeforeMonth y 10 then 9
  else if yday <? daysBeforeMonth y 11 then 10
  else if yday <? daysBeforeMonth y 12 then 11
  else 12.

(** Year, month, day, hour, minute and second of the instant [abs] seconds
    after 0000-01-01T00:00:00 (what [absDate] and [absClock] return). *)
Record civil : Type := Civil
  { cYear : Z; cMonth : Z; cDay : Z; cHour : Z; cMin : Z; cSec : Z }.

Definition civilOf (unix : Z) : civil :=
  let day := unix / 86400 + epochDay in
  let secs := unix mod 86400 in
  let y := yearOf day in
  let yday := day - daysBeforeYear y in
  let m := monthOf y yday in
  Civil y m (yday - daysBeforeMonth y m + 1)
        (secs / 3600) (secs / 60 mod 60) (secs mod 60).

End Calendar.

(** Decimal digits. *)
Definition digit (n : Z) : ascii := ascii_of_N (Z.to_N (48 + n)).

Fixpoint decimal (fuel : nat) (u : Z) (acc : string) : string :=
  match fuel with
  | O => acc
  | S fuel' =>
      let acc' := String (digit (u mod 10)) acc in
      if u <? 10 then acc' else decimal fuel' (u / 10) acc'
  end.

Fixpoint zeros (n : nat) (s : string) : string :=
  match n with
  | O => s
  | S n' => String "0"%char (zeros n' s)
  end.

(** [appendInt(b, x, width)]: a sign for a negative [x], then the decimal
    form of its absolute value, zero-padded to [width]; the two- and
    four-digit fields are written directly. *)
Definition appendInt (x width : Z) : string :=
  let u := Z.abs x in
  (if x <? 0 then "-" else "") +:+
  (if (width =? 2) && (u <? 100) then
     String (digit (u / 10)) (String (digit (u mod 10)) EmptyString)
   else if (width =? 4) && (u <? 10000) then
     String (digit (u / 1000)) (String (digit (u / 100 mod 10))
       (String (digit (u / 10 mod 10)) (String (digit (u mod 10)) EmptyString)))
   else
     let d := decimal 20 u EmptyString in
     zeros (Z.to_nat width - String.length d) d).

(** The zone of the layout element [Z07:00]. *)
Definition formatZone (offset : Z) : string :=
  if offset =? 0 then "Z"
  else
    let zone := Z.quot offset 60 in
    (if zone <? 0 then "-" else "+")
      +:+ appendInt (Z.quot (Z.abs zone) 60) 2 +:+ ":" +:+ appendInt (Z.rem (Z.abs zone) 60) 2.

(** [t.Format(time.RFC3339)], layout [2006-01-02T15:04:05Z07:00]. *)
Definition time_Format_RFC3339 (t : time_Time) : string :=
  let c := Calendar.civilOf (unixSec t + zoneOffset t) in
  appendInt (Calendar.cYear c) 4 +:+ "-" +:+ appendInt (Calendar.cMonth c) 2 +:+ "-"
    +:+ appendInt (Calendar.cDay c) 2 +:+ "T" +:+ appendInt (Calendar.cHour c) 2 +:+ ":"
    +:+ appendInt (Calendar.cMin c) 2 +:+ ":" +:+ appendInt (Calendar.cSec c) 2
    +:+ formatZone (zoneOffset t).

(** [parseUint] of the RFC 3339 reader: a run of decimal digits whose value
    lies in [min..max]. *)
Definition digit_val (c : ascii) : option Z :=
  let n := Z.of_N (N_of_ascii c) in
  if (48 <=? n) && (n <=? 57) then Some (n - 48) else None.

Fixpoint parseDigits (cs : list ascii) (x : Z) : option Z :=
  match cs with
  | [] => Some x
  | c :: cs' =>
      match digit_val c with
      | Some d => parseDigits cs' (x * 10 + d)
      | None => None
      end
  end.

Definition parseUint (cs : list ascii) (min max : Z) : option Z :=
  match parseDigits cs 0 with
  | Some x => if (x <? min) || (max <? x) then None else Some x
  | None => None
  end.

Definition isDigit (c : ascii) : bool :=
  match digit_val c with Some _ => true | None => false end.

Fixpoint skipDigits (s : string) : string :=
  match s with
  | String c rest => if isDigit c then skipDigits rest else s
  | EmptyString => s
  end.

(** The fractional second, read and dropped: a dot followed by at least one
    digit. *)
Definition skipFraction (s : string) : string :=
  match s with
  | String "." (String c rest) => if isDigit c then skipDigits rest else s
  | _ => s
  end.

(** The zone: [Z], or a sign, two digits of hours (0..23), a colon and two
    digits of minutes (0..59).  The result is the offset in seconds. *)
Definition parseZone (s : string) : option Z :=
  match s with
  | String "Z" EmptyString => Some 0
  | String sg (String h1 (String h2 (String cl (String m1 (String m2 EmptyString))))) =>
      match parseUint [h1; h2] 0 23, parseUint [m1; m2] 0 59 with
      | Some hr, Some mm =>
          if (Ascii.eqb sg "-" || Ascii.eqb sg "+") && Ascii.eqb cl ":" then
            let zoneOffset := (hr * 60 + mm) * 60 in
            Some (if Ascii.eqb sg "-" then - zoneOffset else zoneOffset)
          else None
      | _, _ => None
      end
  | _ => None
  end.

(** [parseRFC3339], the strict reader [time.Parse] tries first for the
    layout [time.RFC3339]: fixed columns for date and time, an optional
    fraction, then the zone. *)
Definition parseRFC3339 (s : string) : option time_Time :=
  match s with
  | String y1 (String y2 (String y3 (String y4 (String s4
    (String m1 (String m2 (String s7
    (String d1 (String d2 (String s10
    (String h1 (String h2 (String s13
    (String i1 (String i2 (String s16
    (String c1 (String c2 rest)))))))))))))))))) =>
      match parseUint [y1; y2; y3; y4] 0 9999 with
      | Some year =>
      match parseUint [m1; m2] 1 12 with
      | Some month =>
      match parseUint [d1; d2] 1 (Calendar.daysIn month year),
            parseUint [h1; h2] 0 23, parseUint [i1; i2] 0 59, parseUint [c1; c2] 0 59 with
      | Some day, Some hour, Some min, Some sec =>
          if Ascii.eqb s4 "-" && Ascii.eqb s7 "-" && Ascii.eqb s10 "T"
             && Ascii.eqb s13 ":" && Ascii.eqb s16 ":" then
            match parseZone (skipFraction rest) with
            | Some zoneOffset =>
                Some (mkTime (Calendar.dateUnix year month day hour min sec - zoneOffset)
                             zoneOffset)
            | None => None
            end
          else None
      | _, _, _, _ => None
      end
      | None => None
      end
      | None => None
      end
  | _ => None
  end.

(** [time.Parse(time.RFC3339, value)]; [None] stands for a non-nil error.
    When the strict reader refuses a string, [time.Parse] hands it to its
    general layout-driven reader, which admits a few spellings outside
    RFC 3339.  That reader is not modelled: it is the parameter
    [parse_layout], and every result below holds whatever it does. *)
Definition time_Parse_RFC3339 (parse_layout : string -> option time_Time)
    (value : string) : option time_Time :=
  match parseRFC3339 value with
  | Some t => Some t
  | None => parse_layout value
  end.

(** ** net/http: header maps and requests *)

(** [validHeaderFieldByte]: the token characters of RFC 7230. *)
Definition validHeaderFieldByte (c : ascii) : bool :=
  let n := N_of_ascii c in
  ((48 <=? n) && (n <=? 57))%N || ((65 <=? n) && (n <=? 90))%N
  || ((97 <=? n) && (n <=? 122))%N
  || existsb (Ascii.eqb c) (String.list_ascii_of_string "!#$%&'*+-.^_`|~").

Definition toUpper (c : ascii) : ascii :=
  let n := N_of_ascii c in
  if ((97 <=? n) && (n <=? 122))%N then ascii_of_N (n - 32) else c.

Definition toLower (c : ascii) : ascii :=
  let n := N_of_ascii c in
  if ((65 <=? n) && (n <=? 90))%N then ascii_of_N (n + 32) else c.

Fixpoint all_valid (s : string) : bool :=
  match s with
  | EmptyString => true
  | String c rest => validHeaderFieldByte c && all_valid rest
  end.

(** First letter and every letter after a dash in upper case, the others
    in lower case. *)
Fixpoint canonicalize (upper : bool) (s : string) : string :=
  match s with
  | EmptyString => EmptyString
  | String c rest =>
      let c' := if upper then toUpper c else toLower c in
      String c' (canonicalize (Ascii.eqb c' "-") rest)
  end.

(** [textproto.CanonicalMIMEHeaderKey]: a key with a byte that is no token
    character is left as it is. *)
Definition CanonicalMIMEHeaderKey (s : string) : string :=
  if all_valid s then canonicalize true s else s.

(** [http.Header] is [map[string][]string]. *)
Abbreviation http_Header := (gmap string (list string)).

(** [h.Values(key)]. *)
Definition Header_Values (h : http_Header) (key : string) : list string :=
  default [] (h !! CanonicalMIMEHeaderKey key).

(** [h.Add(key, value)]: appends to the values the key already has. *)
Definition Header_Add (h : http_Header) (key value : string) : http_Header :=
  <[CanonicalMIMEHeaderKey key := Header_Values h key ++ [value]]> h.

(** [h.Set(key, value)]: replaces them. *)
Definition Header_Set (h : http_Header) (key value : string) : http_Header :=
  <[CanonicalMIMEHeaderKey key := [value]]> h.

(** [h.Get(key)]: the first value of the key, or the empty string. *)
Definition Header_Get (h : http_Header) (key : string) : string :=
  match Header_Values h key with
  | [] => ""
  | v :: _ => v
  end.

Record url_URL : Type := mkURL
  { Scheme : string; Host : string; Path : string; RawQuery : string }.

(** The fields of [http.Request] the package reads or writes.  A request is
    one built by [http.NewRequest] or received by a server: its header map
    and its URL are allocated. *)
Record http_Request : Type := mkRequest
  { Method : string; URL : url_URL; Header : http_Header }.

(** ** The signer *)

Record generator : Type := mkGenerator
  { generator_id : string; generator_secret : string }.

Definition NewGenerator (id secret : string) : generator := mkGenerator id secret.

(** [g.AddAuthHeaders(r)] on the request [r] points to, with [now] the
    reading of [time.Now()]: the state of the request after the call. *)
Definition AddAuthHeaders (now : time_Time) (g : generator) (r : http_Request)
    : http_Request :=
  let timeStamp := time_Format_RFC3339 now in
  let sig := GenerateSHA256HMAC (generator_secret g)
               [Method r; Path (URL r); timeStamp] in
  let h1 := Header_Add (Header r) "x-signature" sig in
  let h2 := Header_Add h1 "x-api-key-id" (generator_id g) in
  let h3 := Header_Add h2 "x-timestamp" timeStamp in
  mkRequest (Method r) (URL r) h3.

(** The signer takes and returns a pointer.  [store] maps the pointers in
    use to the requests they point to; [AddAuthHeaders_ptr] updates the
    request behind [r] in place and returns [r] itself.  [None] stands for
    the panic on a pointer to no request. *)
Abbreviation store := (gmap positive http_Request).


(** ** The validator *)

(** Addition of [int64] values wraps around. *)
Definition wrap64 (z : Z) : Z :=
  (z + 9223372036854775808) mod 18446744073709551616 - 9223372036854775808.

Definition add64 (x y : Z) : Z := wrap64 (x + y).

Definition MaxInt64 : Z := 9223372036854775807.
Definition MinInt64 : Z := -9223372036854775808.

Record validator : Type := mkValidator { validity : Z }.

Definition NewValidator (validity : Z) : validator := mkValidator validity.

(** The reasons of a rejection, named as the specification names them. *)
Inductive reason : Type :=
  | MissingHeaders
  | MissingSignature
  | InvalidSignatureEncoding
  | MissingTimestamp
  | InvalidTimestampFormat
  | ExpiredSignature
  | SignatureMismatch.

(** The text of the error [Validate] returns for each reason (the parse
    error it appends to the fifth is left out). *)
Definition error_text (e : reason) : string :=
  match e with
  | MissingHeaders => "missing required headers"
  | MissingSignature => "missing signature header"
  | InvalidSignatureEncoding => "invalid signature format"
  | MissingTimestamp => "missing timestamp header"
  | InvalidTimestampFormat => "error parsing timestamp: "
  | ExpiredSignature => "expired access"
  | SignatureMismatch => "invalid hmac signature"
  end.

(** [v.Validate(r, secret)], with [now] the reading of [time.Now()].  The
    result is Go's pair: [(true, None)] for [(true, nil)], and
    [(false, Some e)] for [false] with the error of reason [e]. *)
Definition Validate (parse_layout : string -> option time_Time) (now : time_Time)
    (v : validator) (r : http_Request) (secret : string) : bool * option reason :=
  if Nat.eqb (size (Header r)) 0 then (false, Some MissingHeaders)
  else
    let sigStr := Header_Get (Header r) "x-signature" in
    if String.eqb sigStr "" then (false, Some MissingSignature)
    else
      match hex_DecodeString sigStr with
      | None => (false, Some InvalidSignatureEncoding)
      | Some sig =>
          let timeStr := Header_Get (Header r) "x-timestamp" in
          if String.eqb timeStr "" then (false, Some MissingTimestamp)
          else
            match time_Parse_RFC3339 parse_layout timeStr with
            | None => (false, Some InvalidTimestampFormat)
            | Some timeStamp =>
                let now := Unix now in
                if now >=? add64 (Unix timeStamp) (validity v)
                then (false, Some ExpiredSignature)
                else if negb (hmac_Equal sig
                               (generateSHA256HMAC secret
                                  [Method r; Path (URL r); timeStr]))
                then (false, Some SignatureMismatch)
                else (true, None)
            end
      end.

(** ** package client: the request handed to the transport *)

Module client.

Record client : Type := mkClient
  { endpoint : string;
    apiKey : string;
    secret : string;
    url : option url_URL;  (* [None]: the nil pointer *)
    hGenerator : generator }.

(** [NewClient(endpoint, apiKey, secret, allowInsecure)]; [url.Parse] is the
    parameter [url_Parse], and [None] its error.  [allowInsecure] only
    configures the transport. *)
Definition NewClient (url_Parse : string -> option url_URL)
    (endpoint apiKey secret : string) (allowInsecure : bool) : option client :=
  match url_Parse endpoint with
  | None => None
  | Some uri =>
      Some (mkClient endpoint apiKey secret (Some uri) (NewGenerator apiKey secret))
  end.

(** [c.Do(req)] up to the call of the underlying [http.Client]: the request
    that client is called with, or [None] for the error "Client not
    initialized".  Scheme and host are overwritten; the path is not (the
    assignment is commented out in the source). *)
Definition Do_request (now : time_Time) (c : client) (req : http_Request)
    : option http_Request :=
  match url c with
  | None => None
  | Some u =>
      let pinned := mkURL (Scheme u) (Host u) (Path (URL req)) (RawQuery (URL req)) in
      Some (AddAuthHeaders now (hGenerator c) (mkRequest (Method req) pinned (Header req)))
  end.

End client.

(** ** packages route and model: routes *)

Module route.

(** [MethodType], an [int32] enumerated with [iota]. *)
Inductive MethodType : Type :=
  GET | HEAD | POST | PUT | PATCH | DELETE | CONNECT | OPTIONS | TRACE.

Definition MethodType_value (m : MethodType) : Z :=
  match m with
  | GET => 0 | HEAD => 1 | POST => 2 | PUT => 3 | PATCH => 4
  | DELETE => 5 | CONNECT => 6 | OPTIONS => 7 | TRACE => 8
  end.

Definition ServicesDatabaseName : string := "services".
Definition RoutesCollectionName : string := "routes".

(** The route table is one package-level pointer, [routeTable].  The store
    behind it is code of another module: its clients, its collections, the
    state of the database ([world]) and the two operations the package
    calls, [client.GetCollection] and [Table.Initialize], are parameters.
    Both operations may read and change the database. *)
Section RouteTable.

Variables (StoreClient StoreCollection world InitError : Type).
Variable GetCollection :
  StoreClient -> string -> string -> world -> StoreCollection * world.
Variable Initialize : StoreCollection -> world -> option InitError * world.

(** A [*RouteTable], known by the collection it was made for. *)
Record RouteTable : Type := mkRouteTable { col : StoreCollection }.

Inductive error : Type :=
  | NotFound (msg : string)
  | InitFailed (e : InitError).

(** The package variable and the database. *)
Record state : Type := mkState { routeTable : option RouteTable; db : world }.

(** What a call returns: the pair of Go, [None] for [nil]. *)
Definition result : Type := option RouteTable * option error.

Definition GetRouteTable (st : state) : result * state :=
  match routeTable st with
  | Some t => ((Some t, None), st)
  | None => ((None, Some (NotFound "route table not found")), st)
  end.

Definition LocateRouteTable (client : StoreClient) (st : state) : result * state :=
  match routeTable st with
  | Some t => ((Some t, None), st)
  | None =>
      let (c, w1) := GetCollection client ServicesDatabaseName RoutesCollectionName
                       (db st) in
      let tbl := mkRouteTable c in
      let (err, w2) := Initialize c w1 in
      match err with
      | Some e => ((None, Some (InitFailed e)), mkState None w2)
      | None => ((Some tbl, None), mkState (Some tbl) w2)
      end
  end.

(** A sequence of calls of the two functions, run one after the other. *)
Inductive call : Type :=
  | Get
  | Locate (client : StoreClient).

Definition step (c : call) (st : state) : result * state :=
  match c with
  | Get => GetRouteTable st
  | Locate client => LocateRouteTable client st
  end.

Fixpoint run (calls : list call) (st : state) : list result * state :=
  match calls with
  | [] => ([], st)
  | c :: rest =>
      let (r, st1) := step c st in
      let (rs, st2) := run rest st1 in
      (r :: rs, st2)
  end.

End RouteTable.

Arguments mkRouteTable {StoreCollection} col.
Arguments col {StoreCollection} r.
Arguments NotFound {InitError} msg.
Arguments InitFailed {InitError} e.
Arguments mkState {StoreCollection world} routeTable db.
Arguments routeTable {StoreCollection world} s.
Arguments db {StoreCollection world} s.
Arguments GetRouteTable {StoreCollection world} InitError st.
Arguments LocateRouteTable {StoreClient StoreCollection world InitError}
  GetCollection Initialize client st.
Arguments Get {StoreClient}.
Arguments Locate {StoreClient} client.
Arguments step {StoreClient StoreCollection world InitError}
  GetCollection Initialize c st.
Arguments run {StoreClient StoreCollection world InitError}
  GetCollection Initialize calls st.

End route.

Module model.

Record Route : Type := mkRoute { Url : string; Method : route.MethodType }.

(** [NewRoute(url, method)]: the switch over the method names of
    [net/http], with [route.GET] as the default. *)
Definition NewRoute (url method : string) : Route :=
  let m :=
    if String.eqb method "HEAD" then route.HEAD
    else if String.eqb method "POST" then route.POST
    else if String.eqb method "PUT" then route.PUT
    else if String.eqb method "PATCH" then route.PATCH
    else if String.eqb method "DELETE" then route.DELETE
    else if String.eqb method "CONNECT" then route.CONNECT
    else if String.eqb method "OPTIONS" then route.OPTIONS
    else if String.eqb method "TRACE" then route.TRACE
    else route.GET in
  mkRoute url m.

End model.

(** [strings.ToUpper] on the bytes of ASCII. *)
Fixpoint strings_ToUpper (s : string) : string :=
  match s with
  | EmptyString => EmptyString
  | String c rest => String (toUpper c) (strings_ToUpper rest)
  end.

(** ** Names used in the statements *)

(** An [int64] value. *)
Definition fits_int64 (z : Z) : Prop := MinInt64 <= z <= MaxInt64.

(** The two headers [Validate] reads and the MAC it recomputes. *)
Definition sigStr (r : http_Request) : string := Header_Get (Header r) "x-signature".
Definition timeStr (r : http_Request) : string := Header_Get (Header r) "x-timestamp".
Definition expectedMAC (secret : string) (r : http_Request) : list byte :=
  generateSHA256HMAC secret [Method r; Path (URL r); timeStr r].

(** The instants [time.Format] writes with four digits of year and a zone of
    whole minutes under a day: what RFC 3339 can express. *)
Definition rfc3339_representable (t : time_Time) : Prop :=
  -62167219200 <= unixSec t + zoneOffset t < 253402300800
  /\ zoneOffset t mod 60 = 0
  /\ -86400 < zoneOffset t < 86400.

(** A request that passes every check of [Validate] other than the one on
    the validity window; [T] is the time its x-timestamp header names. *)
Definition otherwise_valid (parse_layout : string -> option time_Time)
    (r : http_Request) (secret : string) (T : time_Time) : Prop :=
  size (Header r) <> 0%nat
  /\ sigStr r <> "" /\ hex_DecodeString (sigStr r) = Some (expectedMAC secret r)
  /\ timeStr r <> "" /\ time_Parse_RFC3339 parse_layout (timeStr r) = Some T.

(** ** Sample data: the request of the package's own test *)

(** A general layout reader that reads nothing: the strict reader alone. *)
Definition strict_only : string -> option time_Time := fun _ => None.

(** 2025-05-28T05:38:08Z. *)
Definition sample_time : time_Time := mkTime 1748410688 0.

Definition sample_generator : generator := NewGenerator "test-key" "supersecret".

Definition sample_request : http_Request :=
  mkRequest "GET" (mkURL "https" "api.example.com" "/resource" "") ∅.

Definition sample_signed : http_Request :=
  AddAuthHeaders sample_time sample_generator sample_request.

(** The signed request after [Header.Set("x-signature", "deadbeef")]. *)
Definition sample_tampered : http_Request :=
  mkRequest (Method sample_signed) (URL sample_signed)
            (Header_Set (Header sample_signed) "x-signature" "deadbeef").

(** A request with one header that is none of the authentication headers. *)
Definition sample_unsigned : http_Request :=
  mkRequest "GET" (mkURL "https" "api.example.com" "/resource" "")
            (Header_Add ∅ "accept" "*/*").

(** A store for the route table: clients and collections are names, the
    database counts the calls of [Initialize], and the first of them
    fails. *)
Definition sample_GetCollection (client dbName colName : string) (w : nat)
    : string * nat :=
  (client +:+ "/" +:+ dbName +:+ "/" +:+ colName, w).

Definition sample_Initialize (c : string) (w : nat) : option string * nat :=
  (if Nat.eqb w 0 then Some "store unreachable" else None, S w).

(** * Sanity checks of the library models *)

Example sha256_abc :
  hex_EncodeToString (SHA256.Sum256 (bytes_of_string "abc"))
  = "ba7816bf8f01cfea414140de5dae2223b00361a396177a9cb410ff61f20015ad".
Proof. vm_compute. reflexivity. Qed.


Example format_utc :
  time_Format_RFC3339 (mkTime 1748410688 0) = "2025-05-28T05:38:08Z".
Proof. vm_compute. reflexivity. Qed.

Example format_east :
  time_Format_RFC3339 (mkTime 1748410688 19800) = "2025-05-28T11:08:08+05:30".
Proof. vm_compute. reflexivity. Qed.

Example format_west :
  time_Format_RFC3339 (mkTime 1748410688 (-28800)) = "2025-05-27T21:38:08-08:00".
Proof. vm_compute. reflexivity. Qed.

Example format_leap_day :
  time_Format_RFC3339 (mkTime 951782400 0) = "2000-02-29T00:00:00Z".
Proof. vm_compute. reflexivity. Qed.

Example format_last_second :
  time_Format_RFC3339 (mkTime 253402300799 0) = "9999-12-31T23:59:59Z".
Proof. vm_compute. reflexivity. Qed.

Example format_year_zero :
  time_Format_RFC3339 (mkTime (-62167219200) 0) = "0000-01-01T00:00:00Z".
Proof. vm_compute. reflexivity. Qed.

Example format_non_leap_century :
  time_Format_RFC3339 (mkTime 4107542399 3600) = "2100-03-01T00:59:59+01:00".
Proof. vm_compute. reflexivity. Qed.

Example parse_utc :
  parseRFC3339 "2025-05-28T05:38:08Z" = Some (mkTime 1748410688 0).
Proof. vm_compute. reflexivity. Qed.

Example parse_east :
  parseRFC3339 "2025-05-28T11:08:08+05:30" = Some (mkTime 1748410688 19800).
Proof. vm_compute. reflexivity. Qed.

Example parse_fraction :
  parseRFC3339 "2025-05-27T21:38:08.250-08:00" = Some (mkTime 1748410688 (-28800)).
Proof. vm_compute. reflexivity. Qed.

Example parse_not_a_date : parseRFC3339 "2025-02-29T00:00:00Z" = None.
Proof. vm_compute. reflexivity. Qed.

Example parse_epoch_seconds : parseRFC3339 "1748410688" = None.
Proof. vm_compute. reflexivity. Qed.

Example canonical_signature : CanonicalMIMEHeaderKey "x-signature" = "X-Signature".
Proof. reflexivity. Qed.

Example canonical_timestamp : CanonicalMIMEHeaderKey "x-timestamp" = "X-Timestamp".
Proof. reflexivity. Qed.

Example canonical_api_key_id : CanonicalMIMEHeaderKey "x-api-key-id" = "X-Api-Key-Id".
Proof. reflexivity. Qed.

Example canonical_mixed : CanonicalMIMEHeaderKey "cOnTeNt-tYPE" = "Content-Type".
Proof. reflexivity. Qed.

Example canonical_not_a_token : CanonicalMIMEHeaderKey "x signature" = "x signature".
Proof. reflexivity. Qed.


(** ** Facts about the calendar *)

Module CalendarFacts.
Import Calendar.

Lemma yearOf_spec day :
  daysBeforeYear (yearOf day) <= day < daysBeforeYear (yearOf day + 1).
Proof.
  unfold yearOf, daysBeforeYear.
  repeat match goal with |- context [if ?b then _ else _] => destruct b eqn:? end;
    Z.to_euclidean_division_equations; lia.
Qed.

Lemma year_length y :
  daysBeforeYear (y + 1) - daysBeforeYear y = if isLeap y then 366 else 365.
Proof.
  unfold daysBeforeYear, isLeap.
  destruct (y mod 4 =? 0) eqn:H4; destruct (y mod 100 =? 0) eqn:H100;
    destruct (y mod 400 =? 0) eqn:H400; cbn [andb orb negb];
    Z.to_euclidean_division_equations; lia.
Qed.

Lemma daysBeforeMonth_table y :
  let l := if isLeap y then 1 else 0 in
  daysBeforeMonth y 1 = 0 /\ daysBeforeMonth y 2 = 31
  /\ daysBeforeMonth y 3 = 59 + l /\ daysBeforeMonth y 4 = 90 + l
  /\ daysBeforeMonth y 5 = 120 + l /\ daysBeforeMonth y 6 = 151 + l
  /\ daysBeforeMonth y 7 = 181 + l /\ daysBeforeMonth y 8 = 212 + l
  /\ daysBeforeMonth y 9 = 243 + l /\ daysBeforeMonth y 10 = 273 + l
  /\ daysBeforeMonth y 11 = 304 + l /\ daysBeforeMonth y 12 = 334 + l
  /\ daysBeforeMonth y 13 = 365 + l.
Proof. unfold daysBeforeMonth. destruct (isLeap y); vm_compute; tauto. Qed.

Lemma monthOf_spec y yday :
  0 <= yday < (if isLeap y then 366 else 365) ->
  1 <= monthOf y yday <= 12
  /\ daysBeforeMonth y (monthOf y yday) <= yday < daysBeforeMonth y (monthOf y yday + 1).
Proof.
  intros Hy. pose proof (daysBeforeMonth_table y) as T. cbv zeta in T.
  unfold monthOf.
  repeat match goal with
         | |- context [if ?a <? ?b then _ else _] => destruct (Z.ltb_spec a b)
         end;
    match goal with
    | |- context [daysBeforeMonth y (?k + 1)] =>
        let k1 := eval vm_compute in (k + 1) in change (k + 1) with k1
    end;
    destruct (isLeap y); lia.
Qed.

Lemma daysIn_months y m :
  1 <= m <= 12 -> daysIn m y = daysBeforeMonth y (m + 1) - daysBeforeMonth y m.
Proof.
  intros Hm.
  assert (m = 1 \/ m = 2 \/ m = 3 \/ m = 4 \/ m = 5 \/ m = 6 \/ m = 7 \/ m = 8
          \/ m = 9 \/ m = 10 \/ m = 11 \/ m = 12) as Hc by lia.
  unfold daysIn, daysBeforeMonth.
  destruct (isLeap y); intuition subst; reflexivity.
Qed.

(** The fields of [civilOf] lie in their ranges and name the instant. *)
Lemma civilOf_spec unix :
  let c := civilOf unix in
  1 <= cMonth c <= 12 /\ 1 <= cDay c <= daysIn (cMonth c) (cYear c)
  /\ 0 <= cHour c <= 23 /\ 0 <= cMin c <= 59 /\ 0 <= cSec c <= 59
  /\ dateUnix (cYear c) (cMonth c) (cDay c) (cHour c) (cMin c) (cSec c) = unix.
Proof.
  unfold civilOf. cbn [cYear cMonth cDay cHour cMin cSec].
  set (day := unix / 86400 + epochDay).
  pose proof (yearOf_spec day) as Hyear.
  pose proof (year_length (yearOf day)) as Hlen.
  set (y := yearOf day) in *.
  assert (0 <= day - daysBeforeYear y < (if isLeap y then 366 else 365)) as Hyd
      by (destruct (isLeap y); lia).
  destruct (monthOf_spec y _ Hyd) as [Hm Hmd].
  set (m := monthOf y (day - daysBeforeYear y)) in *.
  rewrite (daysIn_months y m Hm).
  unfold dateUnix. subst day. unfold epochDay in *.
  repeat split; try lia; Z.to_euclidean_division_equations; lia.
Qed.

(** The years 0000..9999 are the instants of this range. *)
Lemma civilOf_year unix :
  -62167219200 <= unix < 253402300800 -> 0 <= cYear (civilOf unix) <= 9999.
Proof.
  intros Hu. unfold civilOf. cbn [cYear].
  set (day := unix / 86400 + epochDay).
  pose proof (yearOf_spec day) as Hyear.
  assert (0 <= day < 3652425) as Hd
      by (subst day; unfold epochDay; Z.to_euclidean_division_equations; lia).
  unfold daysBeforeYear in Hyear. Z.to_euclidean_division_equations; lia.
Qed.

End CalendarFacts.

(** ** RFC 3339: what is formatted is read back *)

Lemma digit_val_digit d : 0 <= d <= 9 -> digit_val (digit d) = Some d.
Proof.
  intros Hd.
  assert (d = 0 \/ d = 1 \/ d = 2 \/ d = 3 \/ d = 4 \/ d = 5 \/ d = 6 \/ d = 7
          \/ d = 8 \/ d = 9) as Hc by lia.
  intuition subst; reflexivity.
Qed.

Lemma parseUint_two n lo hi :
  0 <= n <= 99 -> lo <= n <= hi ->
  parseUint [digit (n / 10); digit (n mod 10)] lo hi = Some n.
Proof.
  intros Hn Hr. unfold parseUint. cbn [parseDigits].
  rewrite !digit_val_digit by (Z.to_euclidean_division_equations; lia).
  replace ((0 * 10 + n / 10) * 10 + n mod 10) with n
    by (Z.to_euclidean_division_equations; lia).
  destruct (Z.ltb_spec n lo), (Z.ltb_spec hi n); cbn [orb]; (reflexivity || lia).
Qed.

Lemma parseUint_four n :
  0 <= n <= 9999 ->
  parseUint [digit (n / 1000); digit (n / 100 mod 10); digit (n / 10 mod 10);
             digit (n mod 10)] 0 9999 = Some n.
Proof.
  intros Hn. unfold parseUint. cbn [parseDigits].
  rewrite !digit_val_digit by (Z.to_euclidean_division_equations; lia).
  replace ((((0 * 10 + n / 1000) * 10 + n / 100 mod 10) * 10 + n / 10 mod 10) * 10
           + n mod 10) with n by (Z.to_euclidean_division_equations; lia).
  destruct (Z.ltb_spec n 0), (Z.ltb_spec 9999 n); cbn [orb]; (reflexivity || lia).
Qed.

Lemma appendInt_two n :
  0 <= n <= 99 ->
  appendInt n 2 = String (digit (n / 10)) (String (digit (n mod 10)) EmptyString).
Proof.
  intros Hn. unfold appendInt.
  destruct (Z.ltb_spec n 0); [lia|].
  rewrite Z.abs_eq by lia.
  destruct (Z.ltb_spec n 100); [reflexivity | lia].
Qed.

Lemma appendInt_four n :
  0 <= n <= 9999 ->
  appendInt n 4 = String (digit (n / 1000)) (String (digit (n / 100 mod 10))
                    (String (digit (n / 10 mod 10)) (String (digit (n mod 10)) EmptyString))).
Proof.
  intros Hn. unfold appendInt.
  destruct (Z.ltb_spec n 0); [lia|].
  rewrite Z.abs_eq by lia.
  destruct (Z.ltb_spec n 10000); [reflexivity | lia].
Qed.

Lemma parseZone_formatZone offset :
  offset mod 60 = 0 -> -86400 < offset < 86400 ->
  parseZone (formatZone offset) = Some offset.
Proof.
  intros Hm Hr. unfold formatZone.
  destruct (Z.eqb_spec offset 0) as [->|Hne]; [reflexivity|].
  set (zone := Z.quot offset 60).
  assert (offset = 60 * zone) as Hz
      by (subst zone; Z.to_euclidean_division_equations; lia).
  assert (0 <= Z.abs zone < 1440) as Ha by lia.
  rewrite !appendInt_two by (Z.to_euclidean_division_equations; lia).
  rewrite Z.quot_div_nonneg, Z.rem_mod_nonneg by lia.
  set (a := Z.abs zone) in *.
  destruct (Z.ltb_spec zone 0); cbv [String.append parseZone];
    rewrite !parseUint_two by (Z.to_euclidean_division_equations; lia);
    cbn [Ascii.eqb Bool.eqb andb orb]; f_equal; Z.to_euclidean_division_equations; lia.
Qed.

Lemma skipFraction_formatZone offset : skipFraction (formatZone offset) = formatZone offset.
Proof.
  unfold formatZone. destruct (offset =? 0); [reflexivity|].
  destruct (Z.quot offset 60 <? 0); reflexivity.
Qed.

Theorem parseRFC3339_Format (t : time_Time) :
  rfc3339_representable t -> parseRFC3339 (time_Format_RFC3339 t) = Some t.
Proof.
  intros (Hrange & Hmin & Hoff).
  unfold time_Format_RFC3339.
  pose proof (CalendarFacts.civilOf_spec (unixSec t + zoneOffset t)) as Hc.
  pose proof (CalendarFacts.civilOf_year _ Hrange) as Hy.
  cbv zeta in Hc.
  destruct (Calendar.civilOf (unixSec t + zoneOffset t)) as [y m d hh mi ss].
  cbn [Calendar.cYear Calendar.cMonth Calendar.cDay Calendar.cHour Calendar.cMin
       Calendar.cSec] in *.
  destruct Hc as (Hm & Hd & Hh & Hmi & Hs & Hunix).
  assert (Calendar.daysIn m y <= 31) as Hd31.
  { unfold Calendar.daysIn.
    assert (m = 1 \/ m = 2 \/ m = 3 \/ m = 4 \/ m = 5 \/ m = 6 \/ m = 7 \/ m = 8
            \/ m = 9 \/ m = 10 \/ m = 11 \/ m = 12) as Hcase by lia.
    destruct (Calendar.isLeap y); intuition subst; vm_compute; discriminate. }
  rewrite appendInt_four by lia.
  rewrite !appendInt_two by lia.
  cbv [String.append parseRFC3339].
  rewrite parseUint_four by lia.
  rewrite !parseUint_two by lia.
  cbn [Ascii.eqb Bool.eqb andb].
  rewrite skipFraction_formatZone, parseZone_formatZone by assumption.
  destruct t as [u o]. cbn [unixSec zoneOffset] in *.
  rewrite Hunix. do 2 f_equal. lia.
Qed.

Lemma time_Format_nonempty (t : time_Time) : time_Format_RFC3339 t <> "".
Proof.
  unfold time_Format_RFC3339. intros E.
  destruct (appendInt (Calendar.cYear _) 4); discriminate E.
Qed.

(** ** encoding/hex: decoding undoes encoding *)

Lemma hex_digits_of_byte (b : byte) :
  fromHexChar (hex_digit (Byte.to_N b / 16)) = Some (Byte.to_N b / 16)%N
  /\ fromHexChar (hex_digit (Byte.to_N b mod 16)) = Some (Byte.to_N b mod 16)%N
  /\ Byte.of_N (Byte.to_N b / 16 * 16 + Byte.to_N b mod 16) = Some b.
Proof. destruct b; vm_compute; auto. Qed.

Theorem hex_Decode_Encode (bs : list byte) :
  hex_DecodeString (hex_EncodeToString bs) = Some bs.
Proof.
  induction bs as [|b bs IH]; [reflexivity|].
  cbn [hex_EncodeToString hex_DecodeString].
  destruct (hex_digits_of_byte b) as (-> & -> & ->). rewrite IH. reflexivity.
Qed.

Lemma hex_EncodeToString_length (bs : list byte) :
  String.length (hex_EncodeToString bs) = (2 * length bs)%nat.
Proof. induction bs as [|b bs IH]; cbn [hex_EncodeToString String.length length]; lia. Qed.

(** ** crypto/subtle: the accumulated XOR is zero exactly on equal slices *)

Lemma byte_to_N_inj (x y : byte) : Byte.to_N x = Byte.to_N y -> x = y.
Proof.
  intros H. pose proof (Byte.of_to_N x) as Hx. rewrite H, Byte.of_to_N in Hx.
  congruence.
Qed.

Lemma xor_accumulate_zero (a b : list byte) (v : N) :
  length a = length b ->
  (xor_accumulate v a b = 0%N <-> v = 0%N /\ a = b).
Proof.
  revert b v. induction a as [|x a IH]; intros [|y b] v Hlen; try discriminate.
  - cbn. intuition.
  - cbn [xor_accumulate]. injection Hlen as Hlen. rewrite (IH b _ Hlen).
    rewrite N.lor_eq_0_iff, N.lxor_eq_0_iff. split.
    + intros [[Hv Hxy] ->]. apply byte_to_N_inj in Hxy. subst. auto.
    + intros [Hv Heq]. injection Heq as -> ->. auto.
Qed.

Theorem hmac_Equal_iff (a b : list byte) : hmac_Equal a b = true <-> a = b.
Proof.
  unfold hmac_Equal, subtle_ConstantTimeCompare.
  destruct (Nat.eqb_spec (length a) (length b)) as [Hlen|Hlen]; cbn [negb].
  - pose proof (xor_accumulate_zero a b 0%N Hlen) as Hx.
    destruct (N.eqb_spec (xor_accumulate 0%N a b) 0%N) as [Hz|Hz].
    + split; [intros _; apply Hx, Hz | reflexivity].
    + split; [discriminate | intros Heq; exfalso; apply Hz, Hx; auto].
  - split; [discriminate | intros ->; contradiction].
Qed.

(** ** crypto/sha256, crypto/hmac: a digest has 32 bytes *)

Lemma Sum256_length (msg : list byte) : length (SHA256.Sum256 msg) = 32%nat.
Proof. reflexivity. Qed.

Lemma hmac_SHA256_length (key msg : list byte) : length (hmac_SHA256 key msg) = 32%nat.
Proof. unfold hmac_SHA256. apply Sum256_length. Qed.

Lemma GenerateSHA256HMAC_length (secret : string) (v : list string) :
  String.length (GenerateSHA256HMAC secret v) = 64%nat.
Proof.
  unfold GenerateSHA256HMAC, generateSHA256HMAC.
  rewrite hex_EncodeToString_length, hmac_SHA256_length. reflexivity.
Qed.

Lemma append_empty (s : string) : s +:+ "" = s.
Proof.
  induction s as [|c s IH]; [reflexivity|].
  change (String c s +:+ "") with (String c (s +:+ "")). now rewrite IH.
Qed.

Lemma append_assoc (a b c : string) : a +:+ b +:+ c = (a +:+ b) +:+ c.
Proof.
  induction a as [|x a IH]; [reflexivity|].
  change (String x (a +:+ b +:+ c) = String x ((a +:+ b) +:+ c)). now rewrite IH.
Qed.

(** [strings.Join] with the empty separator is concatenation. *)
Lemma strings_Join_three (a b c : string) : strings_Join [a; b; c] = a +:+ b +:+ c.
Proof. unfold strings_Join. cbn [fold_right]. now rewrite append_empty. Qed.

(** ** net/http: reading a header map after [Add] *)

Lemma Header_Values_Add (h : http_Header) (key key' value : string) :
  Header_Values (Header_Add h key value) key'
  = if decide (CanonicalMIMEHeaderKey key = CanonicalMIMEHeaderKey key')
    then Header_Values h key ++ [value]
    else Header_Values h key'.
Proof.
  unfold Header_Add, Header_Values at 1.
  rewrite lookup_insert. case_decide as Hk.
  - reflexivity.
  - reflexivity.
Qed.


Lemma Header_Add_nonempty (h : http_Header) (key value : string) :
  size (Header_Add h key value) <> 0%nat.
Proof.
  unfold Header_Add. intros Hs. apply map_size_empty_inv in Hs.
  revert Hs. apply insert_non_empty.
Qed.

Lemma Header_Get_Add (h : http_Header) (key key' value : string) :
  Header_Get (Header_Add h key value) key'
  = if decide (CanonicalMIMEHeaderKey key = CanonicalMIMEHeaderKey key')
    then match Header_Values h key with [] => value | x :: _ => x end
    else Header_Get h key'.
Proof.
  unfold Header_Get. rewrite Header_Values_Add. case_decide; [|reflexivity].
  destruct (Header_Values h key); reflexivity.
Qed.

(** A key that has values keeps them, and its first value, under [Add]. *)
Lemma Header_Values_Add_keep (h : http_Header) (key key' value : string) :
  Header_Values h key' <> [] -> Header_Values (Header_Add h key value) key' <> [].
Proof.
  intros Hh. rewrite Header_Values_Add. case_decide as Hk; [|assumption].
  intros Happ. now apply app_eq_nil in Happ as [_ ?].
Qed.

Lemma Header_Get_Add_keep (h : http_Header) (key key' value : string) :
  Header_Values h key' <> [] -> Header_Get (Header_Add h key value) key' = Header_Get h key'.
Proof.
  intros Hh. rewrite Header_Get_Add. case_decide as Hk; [|reflexivity].
  unfold Header_Get, Header_Values in *. rewrite Hk.
  destruct (default [] (h !! CanonicalMIMEHeaderKey key')); [contradiction|reflexivity].
Qed.

(** ** The signer: what [AddAuthHeaders] leaves in the request *)

Section Signer.

Variables (now : time_Time) (g : generator) (r : http_Request).

Let timeStamp : string := time_Format_RFC3339 now.
Let sig : string :=
  GenerateSHA256HMAC (generator_secret g) [Method r; Path (URL r); timeStamp].

Lemma AddAuthHeaders_Method : Method (AddAuthHeaders now g r) = Method r.
Proof. reflexivity. Qed.

Lemma AddAuthHeaders_URL : URL (AddAuthHeaders now g r) = URL r.
Proof. reflexivity. Qed.

Lemma AddAuthHeaders_signature :
  Header_Values (Header (AddAuthHeaders now g r)) "x-signature"
  = Header_Values (Header r) "x-signature" ++ [sig].
Proof.
  unfold AddAuthHeaders. cbn [Header]. rewrite !Header_Values_Add.
  repeat case_decide; try discriminate; reflexivity || (exfalso; auto).
Qed.

Lemma AddAuthHeaders_key_id :
  Header_Values (Header (AddAuthHeaders now g r)) "x-api-key-id"
  = Header_Values (Header r) "x-api-key-id" ++ [generator_id g].
Proof.
  unfold AddAuthHeaders. cbn [Header]. rewrite !Header_Values_Add.
  repeat case_decide; try discriminate; reflexivity || (exfalso; auto).
Qed.

Lemma AddAuthHeaders_timestamp :
  Header_Values (Header (AddAuthHeaders now g r)) "x-timestamp"
  = Header_Values (Header r) "x-timestamp" ++ [timeStamp].
Proof.
  unfold AddAuthHeaders. cbn [Header]. rewrite !Header_Values_Add.
  repeat case_decide; try discriminate; reflexivity || (exfalso; auto).
Qed.


(** A header that had values reads as before; the two the validator reads,
    when they had none, read as what the signer appended. *)
Lemma AddAuthHeaders_Get_keep (key : string) :
  Header_Values (Header r) key <> [] ->
  Header_Get (Header (AddAuthHeaders now g r)) key = Header_Get (Header r) key.
Proof.
  intros Hsome. unfold AddAuthHeaders. cbn [Header].
  rewrite !Header_Get_Add_keep; auto using Header_Values_Add_keep.
Qed.

Lemma AddAuthHeaders_reads_signature :
  Header_Values (Header r) "x-signature" = [] -> sigStr (AddAuthHeaders now g r) = sig.
Proof.
  intros Hnone. unfold sigStr, Header_Get.
  now rewrite AddAuthHeaders_signature, Hnone.
Qed.

Lemma AddAuthHeaders_reads_timestamp :
  Header_Values (Header r) "x-timestamp" = [] ->
  timeStr (AddAuthHeaders now g r) = timeStamp.
Proof.
  intros Hnone. unfold timeStr, Header_Get.
  now rewrite AddAuthHeaders_timestamp, Hnone.
Qed.

Lemma AddAuthHeaders_nonempty : size (Header (AddAuthHeaders now g r)) <> 0%nat.
Proof. apply Header_Add_nonempty. Qed.

End Signer.

(** ** 64-bit addition *)

Lemma add64_exact (x y : Z) : fits_int64 (x + y) -> add64 x y = x + y.
Proof.
  unfold fits_int64, MinInt64, MaxInt64, add64, wrap64. intros H.
  rewrite Z.mod_small by lia. lia.
Qed.

(** ** The validator, check by check *)

Section ValidatorSteps.

Variable parse_layout : string -> option time_Time.
Variables (now : time_Time) (v : validator) (r : http_Request) (secret : string).

Local Abbreviation validate := (Validate parse_layout now v r secret).
Local Abbreviation parse := (time_Parse_RFC3339 parse_layout).

Lemma Validate_no_headers :
  size (Header r) = 0%nat -> validate = (false, Some MissingHeaders).
Proof. intros H. unfold Validate. now rewrite H. Qed.

Lemma Validate_no_signature :
  size (Header r) <> 0%nat -> sigStr r = "" ->
  validate = (false, Some MissingSignature).
Proof.
  intros H1 H2. unfold Validate. fold (sigStr r).
  apply Nat.eqb_neq in H1. rewrite H1, H2. reflexivity.
Qed.

Lemma Validate_bad_signature :
  size (Header r) <> 0%nat -> sigStr r <> "" -> hex_DecodeString (sigStr r) = None ->
  validate = (false, Some InvalidSignatureEncoding).
Proof.
  intros H1 H2 H3. unfold Validate. fold (sigStr r).
  apply Nat.eqb_neq in H1. apply String.eqb_neq in H2. rewrite H1, H2, H3. reflexivity.
Qed.

Lemma Validate_no_timestamp (sig : list byte) :
  size (Header r) <> 0%nat -> sigStr r <> "" -> hex_DecodeString (sigStr r) = Some sig ->
  timeStr r = "" ->
  validate = (false, Some MissingTimestamp).
Proof.
  intros H1 H2 H3 H4. unfold Validate. fold (sigStr r) (timeStr r).
  apply Nat.eqb_neq in H1. apply String.eqb_neq in H2.
  rewrite H1, H2, H3, H4. reflexivity.
Qed.

Lemma Validate_bad_timestamp (sig : list byte) :
  size (Header r) <> 0%nat -> sigStr r <> "" -> hex_DecodeString (sigStr r) = Some sig ->
  timeStr r <> "" -> parse (timeStr r) = None ->
  validate = (false, Some InvalidTimestampFormat).
Proof.
  intros H1 H2 H3 H4 H5. unfold Validate. fold (sigStr r) (timeStr r).
  apply Nat.eqb_neq in H1. apply String.eqb_neq in H2. apply String.eqb_neq in H4.
  rewrite H1, H2, H3, H4, H5. reflexivity.
Qed.

(** Past the five checks on the headers, the verdict is the window check
    followed by the comparison of the MACs.  The window ends at the 64-bit
    sum [add64 (Unix T) (validity v)]. *)
Lemma Validate_parsed (sig : list byte) (T : time_Time) :
  size (Header r) <> 0%nat -> sigStr r <> "" -> hex_DecodeString (sigStr r) = Some sig ->
  timeStr r <> "" -> parse (timeStr r) = Some T ->
  validate =
    if Unix now >=? add64 (Unix T) (validity v) then (false, Some ExpiredSignature)
    else if negb (hmac_Equal sig (expectedMAC secret r)) then (false, Some SignatureMismatch)
    else (true, None).
Proof.
  intros H1 H2 H3 H4 H5. unfold Validate. fold (sigStr r) (timeStr r).
  apply Nat.eqb_neq in H1. apply String.eqb_neq in H2. apply String.eqb_neq in H4.
  rewrite H1, H2, H3, H4, H5. reflexivity.
Qed.

Lemma Validate_expired (sig : list byte) (T : time_Time) :
  size (Header r) <> 0%nat -> sigStr r <> "" -> hex_DecodeString (sigStr r) = Some sig ->
  timeStr r <> "" -> parse (timeStr r) = Some T ->
  add64 (Unix T) (validity v) <= Unix now ->
  validate = (false, Some ExpiredSignature).
Proof.
  intros H1 H2 H3 H4 H5 H6. rewrite (Validate_parsed sig T) by assumption.
  rewrite Z.geb_leb. destruct (Z.leb_spec (add64 (Unix T) (validity v)) (Unix now));
    [reflexivity | lia].
Qed.

Lemma Validate_mismatch (sig : list byte) (T : time_Time) :
  size (Header r) <> 0%nat -> sigStr r <> "" -> hex_DecodeString (sigStr r) = Some sig ->
  timeStr r <> "" -> parse (timeStr r) = Some T ->
  Unix now < add64 (Unix T) (validity v) -> sig <> expectedMAC secret r ->
  validate = (false, Some SignatureMismatch).
Proof.
  intros H1 H2 H3 H4 H5 H6 H7. rewrite (Validate_parsed sig T) by assumption.
  rewrite Z.geb_leb. destruct (Z.leb_spec (add64 (Unix T) (validity v)) (Unix now));
    [lia|].
  destruct (hmac_Equal sig (expectedMAC secret r)) eqn:He; [|reflexivity].
  apply hmac_Equal_iff in He. contradiction.
Qed.

Lemma Validate_accepted (T : time_Time) :
  size (Header r) <> 0%nat -> sigStr r <> "" ->
  hex_DecodeString (sigStr r) = Some (expectedMAC secret r) ->
  timeStr r <> "" -> parse (timeStr r) = Some T ->
  Unix now < add64 (Unix T) (validity v) ->
  validate = (true, None).
Proof.
  intros H1 H2 H3 H4 H5 H6. rewrite (Validate_parsed _ T) by eassumption.
  rewrite Z.geb_leb. destruct (Z.leb_spec (add64 (Unix T) (validity v)) (Unix now));
    [lia|].
  assert (hmac_Equal (expectedMAC secret r) (expectedMAC secret r) = true) as ->
      by now apply hmac_Equal_iff.
  reflexivity.
Qed.

(** Acceptance, as the code decides it. *)
Lemma Validate_true_inv :
  validate = (true, None) ->
  size (Header r) <> 0%nat /\ sigStr r <> "" /\ timeStr r <> ""
  /\ hex_DecodeString (sigStr r) = Some (expectedMAC secret r)
  /\ exists T, parse (timeStr r) = Some T
               /\ Unix now < add64 (Unix T) (validity v).
Proof.
  unfold Validate. fold (sigStr r) (timeStr r) (expectedMAC secret r).
  destruct (Nat.eqb_spec (size (Header r)) 0); [discriminate|].
  destruct (String.eqb_spec (sigStr r) ""); [discriminate|].
  destruct (hex_DecodeString (sigStr r)) as [sig|]; [|discriminate].
  destruct (String.eqb_spec (timeStr r) ""); [discriminate|].
  destruct (parse (timeStr r)) as [T|]; [|discriminate].
  rewrite Z.geb_leb.
  destruct (Z.leb_spec (add64 (Unix T) (validity v)) (Unix now)); [discriminate|].
  destruct (hmac_Equal sig (expectedMAC secret r)) eqn:He; [|discriminate].
  apply hmac_Equal_iff in He. subst sig. intros _. eauto 10.
Qed.

(** Every outcome is an acceptance with no error or a rejection with one. *)
Lemma Validate_outcome :
  validate = (true, None) \/ exists e, validate = (false, Some e).
Proof.
  unfold Validate.
  repeat match goal with
         | |- context [if ?b then _ else _] => destruct b
         | |- context [match ?o with Some _ => _ | None => _ end] => destruct o
         end; eauto.
Qed.

End ValidatorSteps.

(** ** The package's own test, run on the model *)

(** A timestamp the strict reader reads never reaches the general reader:
    on such a request the verdict is the same for every [parse_layout]. *)
Lemma Validate_strict_reader parse_layout now v r secret :
  is_Some (parseRFC3339 (timeStr r)) ->
  Validate parse_layout now v r secret = Validate strict_only now v r secret.
Proof.
  intros [T HT]. unfold Validate, time_Parse_RFC3339. fold (timeStr r).
  now rewrite HT.
Qed.

(** [TestGeneratorAndValidator]: the signed request is valid; with the
    signature set to "deadbeef" it is not; signed again (which appends) and
    with the timestamp set two minutes back, it has expired. *)
Example TestGeneratorAndValidator :
  Validate strict_only sample_time (NewValidator 60) sample_signed "supersecret"
  = (true, None)
  /\ Validate strict_only sample_time (NewValidator 60) sample_tampered "supersecret"
     = (false, Some SignatureMismatch)
  /\ (let signedReq := AddAuthHeaders sample_time sample_generator sample_tampered in
      let oldTime := time_Format_RFC3339 (mkTime (1748410688 - 120) 0) in
      Validate strict_only sample_time (NewValidator 60)
        (mkRequest (Method signedReq) (URL signedReq)
                   (Header_Set (Header signedReq) "x-timestamp" oldTime))
        "supersecret"
      = (false, Some ExpiredSignature)).
Proof. repeat split; vm_compute; reflexivity. Qed.

(** Beyond the year 9999 the signer writes five digits of year, which is no
    RFC 3339 timestamp: the strict reader refuses what was just signed. *)
Example year_10000_not_read_back :
  time_Format_RFC3339 (mkTime 253402300800 0) = "10000-01-01T00:00:00Z"
  /\ Validate strict_only (mkTime 253402300800 0) (NewValidator 60)
       (AddAuthHeaders (mkTime 253402300800 0) sample_generator sample_request)
       "supersecret"
     = (false, Some InvalidTimestampFormat).
Proof. split; vm_compute; reflexivity. Qed.

(** A negative validity turns the window into a delay: a timestamp half a
    minute ahead of the clock has expired under a validity of -60. *)
Example negative_validity_rejects_future :
  Validate strict_only (mkTime (1748410688 - 30) 0) (NewValidator (-60))
    sample_signed "supersecret"
  = (false, Some ExpiredSignature).
Proof. vm_compute. reflexivity. Qed.

(** * The properties of the specification *)

(** ** Known vector *)

(** C3. [GenerateSHA256HMAC] with the secret "mysupersecretcode" and the
    fields "POST", "/api/service1/v1/scope/abc/test/test1", "1748410688"
    gives the digest 2c269d57...caa08; the digest the second bundled test
    expects for the same input, 04a41d00...4461, is not what it gives. *)
Theorem C3_known_vector :
  GenerateSHA256HMAC "mysupersecretcode"
    ["POST"; "/api/service1/v1/scope/abc/test/test1"; "1748410688"]
  = "2c269d572fbd6b324b5f6eb1cf06bed60811b43a82642d5f7f438b65160caa08"
  /\ GenerateSHA256HMAC "mysupersecretcode"
       ["POST"; "/api/service1/v1/scope/abc/test/test1"; "1748410688"]
     <> "04a41d00f2f133c8746d11c7d3d5bfc547fc514b583e3798b1df2c9c09204461".
Proof. split; vm_compute; [reflexivity | discriminate]. Qed.

(** ** The bytes that are signed *)

Lemma generateSHA256HMAC_concat (secret m p t : string) :
  generateSHA256HMAC secret [m; p; t]
  = hmac_SHA256 (bytes_of_string secret) (bytes_of_string (m +:+ p +:+ t)).
Proof. unfold generateSHA256HMAC. now rewrite strings_Join_three. Qed.

Lemma Validate_mismatch_inv parse_layout now v r secret :
  Validate parse_layout now v r secret = (false, Some SignatureMismatch) ->
  exists sig, hex_DecodeString (sigStr r) = Some sig /\ sig <> expectedMAC secret r.
Proof.
  unfold Validate. fold (sigStr r) (timeStr r) (expectedMAC secret r).
  destruct (Nat.eqb (size (Header r)) 0); [discriminate|].
  destruct (String.eqb (sigStr r) ""); [discriminate|].
  destruct (hex_DecodeString (sigStr r)) as [sig|]; [|discriminate].
  destruct (String.eqb (timeStr r) ""); [discriminate|].
  destruct (time_Parse_RFC3339 parse_layout (timeStr r)) as [T|]; [|discriminate].
  destruct (Unix now >=? add64 (Unix T) (validity v)); [discriminate|].
  destruct (hmac_Equal sig (expectedMAC secret r)) eqn:He; [discriminate|].
  intros _. exists sig. split; [reflexivity|]. intros ->.
  assert (hmac_Equal (expectedMAC secret r) (expectedMAC secret r) = true)
    by now apply hmac_Equal_iff.
  congruence.
Qed.

(** The verdict looks at the path of the URL and at none of its other
    components. *)
Lemma Validate_path_only parse_layout now v r secret (u : url_URL) :
  Path u = Path (URL r) ->
  Validate parse_layout now v (mkRequest (Method r) u (Header r)) secret
  = Validate parse_layout now v r secret.
Proof. intros Hp. unfold Validate. cbn [Method URL Header]. now rewrite Hp. Qed.

(** C4. Signer and validator feed the HMAC the same bytes: the method, the
    path of the URL and the timestamp string, joined with nothing between
    them.  The signer appends the hex digest of these bytes as x-signature
    and the timestamp string itself as x-timestamp; the validator accepts
    only a signature that decodes to the HMAC of method, path and the
    x-timestamp header as received, rejects with the mismatch reason only
    one that does not, and ignores every other component of the URL. *)
Theorem C4_canonical_signature_input
    (parse_layout : string -> option time_Time) (now now' : time_Time)
    (g : generator) (v : validator) (r : http_Request) (secret : string) :
  (forall m p t : string,
      generateSHA256HMAC secret [m; p; t]
      = hmac_SHA256 (bytes_of_string secret) (bytes_of_string (m +:+ p +:+ t)))
  /\ last (Header_Values (Header (AddAuthHeaders now g r)) "x-signature")
     = Some (hex_EncodeToString
               (hmac_SHA256 (bytes_of_string (generator_secret g))
                  (bytes_of_string
                     (Method r +:+ Path (URL r) +:+ time_Format_RFC3339 now))))
  /\ last (Header_Values (Header (AddAuthHeaders now g r)) "x-timestamp")
     = Some (time_Format_RFC3339 now)
  /\ (Validate parse_layout now' v r secret = (true, None) ->
      hex_DecodeString (sigStr r)
      = Some (hmac_SHA256 (bytes_of_string secret)
                (bytes_of_string (Method r +:+ Path (URL r) +:+ timeStr r))))
  /\ (Validate parse_layout now' v r secret = (false, Some SignatureMismatch) ->
      exists sig, hex_DecodeString (sigStr r) = Some sig
                  /\ sig <> hmac_SHA256 (bytes_of_string secret)
                              (bytes_of_string
                                 (Method r +:+ Path (URL r) +:+ timeStr r)))
  /\ (forall u : url_URL,
         Path u = Path (URL r) ->
         Validate parse_layout now' v (mkRequest (Method r) u (Header r)) secret
         = Validate parse_layout now' v r secret).
Proof.
  split; [intros; apply generateSHA256HMAC_concat|].
  split.
  { rewrite AddAuthHeaders_signature, last_snoc.
    unfold GenerateSHA256HMAC. now rewrite generateSHA256HMAC_concat. }
  split; [now rewrite AddAuthHeaders_timestamp, last_snoc|].
  split.
  { intros Hok. apply Validate_true_inv in Hok as (_ & _ & _ & Hsig & _).
    rewrite Hsig. unfold expectedMAC. now rewrite generateSHA256HMAC_concat. }
  split.
  { intros Hbad. apply Validate_mismatch_inv in Hbad as (sig & Hsig & Hne).
    exists sig. split; [assumption|].
    unfold expectedMAC in Hne. now rewrite generateSHA256HMAC_concat in Hne. }
  intros u Hu. now apply Validate_path_only.
Qed.

(** The sample request, signed and validated within the window, and the
    same with another host and a query. *)
Lemma C4_witness :
  hex_DecodeString (sigStr sample_signed)
  = Some (hmac_SHA256 (bytes_of_string "supersecret")
            (bytes_of_string ("GET" +:+ "/resource" +:+ "2025-05-28T05:38:08Z")))
  /\ Validate strict_only sample_time (NewValidator 60)
       (mkRequest "GET" (mkURL "http" "other.example.com" "/resource" "a=1")
                  (Header sample_signed)) "supersecret"
     = (true, None).
Proof.
  pose proof (C4_canonical_signature_input strict_only sample_time sample_time
                sample_generator (NewValidator 60) sample_signed "supersecret")
    as (_ & _ & _ & Hok & _ & Hpath).
  split.
  - apply Hok. vm_compute. reflexivity.
  - transitivity (Validate strict_only sample_time (NewValidator 60) sample_signed
                    "supersecret").
    + exact (Hpath (mkURL "http" "other.example.com" "/resource" "a=1") eq_refl).
    + vm_compute. reflexivity.
Defined.

(** ** The signer's postcondition *)




(** ** Signing a signed request again *)

Lemma Header_Values_nonempty_size (h : http_Header) (key : string) :
  Header_Values h key <> [] -> size h <> 0%nat.
Proof.
  intros Hv Hs. apply map_size_empty_inv in Hs. subst h.
  unfold Header_Values in Hv. now rewrite lookup_empty in Hv.
Qed.

(** C10. [AddAuthHeaders] appends and [Validate] reads first values.  On a
    request that already carries an x-signature and an x-timestamp value,
    signing again keeps both lists and adds the new values at their ends,
    leaves the signature and the timestamp [Validate] reads as they were,
    and so leaves every verdict of [Validate] as it was. *)
Theorem C10_resigning_does_not_replace
    (parse_layout : string -> option time_Time) (now : time_Time)
    (g : generator) (r : http_Request) :
  Header_Values (Header r) "x-signature" <> [] ->
  Header_Values (Header r) "x-timestamp" <> [] ->
  let r' := AddAuthHeaders now g r in
  Header_Values (Header r') "x-signature"
  = Header_Values (Header r) "x-signature"
      ++ [GenerateSHA256HMAC (generator_secret g)
            [Method r; Path (URL r); time_Format_RFC3339 now]]
  /\ Header_Values (Header r') "x-timestamp"
     = Header_Values (Header r) "x-timestamp" ++ [time_Format_RFC3339 now]
  /\ sigStr r' = sigStr r /\ timeStr r' = timeStr r
  /\ (forall (now' : time_Time) (v : validator) (secret : string),
         Validate parse_layout now' v r' secret
         = Validate parse_layout now' v r secret).
Proof.
  intros Hsig Hts r'.
  assert (sigStr r' = sigStr r) as Es
      by (unfold sigStr; now apply AddAuthHeaders_Get_keep).
  assert (timeStr r' = timeStr r) as Et
      by (unfold timeStr; now apply AddAuthHeaders_Get_keep).
  split; [apply AddAuthHeaders_signature|].
  split; [apply AddAuthHeaders_timestamp|].
  split; [assumption|]. split; [assumption|].
  intros now' v secret. unfold Validate.
  fold (sigStr r') (timeStr r') (sigStr r) (timeStr r).
  rewrite Es, Et. subst r'. rewrite AddAuthHeaders_Method, AddAuthHeaders_URL.
  pose proof (AddAuthHeaders_nonempty now g r) as Hn'.
  pose proof (Header_Values_nonempty_size _ _ Hsig) as Hn.
  apply Nat.eqb_neq in Hn, Hn'. rewrite Hn, Hn'. reflexivity.
Qed.

(** The tampered request of the test, signed again a minute later: the
    validator still reads "deadbeef" and the first timestamp. *)
Lemma C10_witness :
  sigStr (AddAuthHeaders (mkTime 1748410748 0) sample_generator sample_tampered)
  = "deadbeef"
  /\ timeStr (AddAuthHeaders (mkTime 1748410748 0) sample_generator sample_tampered)
     = "2025-05-28T05:38:08Z"
  /\ Validate strict_only (mkTime 1748410748 0) (NewValidator 60)
       (AddAuthHeaders (mkTime 1748410748 0) sample_generator sample_tampered)
       "supersecret"
     = Validate strict_only (mkTime 1748410748 0) (NewValidator 60)
         sample_tampered "supersecret".
Proof.
  assert (Header_Values (Header sample_tampered) "x-signature" <> []) as H1
      by (vm_compute; discriminate).
  assert (Header_Values (Header sample_tampered) "x-timestamp" <> []) as H2
      by (vm_compute; discriminate).
  pose proof (C10_resigning_does_not_replace strict_only (mkTime 1748410748 0)
                sample_generator sample_tampered H1 H2) as (_ & _ & Hs & Ht & Hv).
  split; [rewrite Hs; vm_compute; reflexivity|].
  split; [rewrite Ht; vm_compute; reflexivity|].
  apply Hv.
Defined.

(** ** The order of the checks on the headers *)

(** C7, as the code has it.  For a request with at least one header and no
    x-timestamp value, the reason is the missing timestamp when the
    x-signature header is present and decodes as hex; when the x-signature
    header is absent too, the reason is the missing signature, which is
    looked at first. *)
Theorem C7_missing_timestamp
    (parse_layout : string -> option time_Time) (now : time_Time)
    (v : validator) (r : http_Request) (secret : string) :
  size (Header r) <> 0%nat -> timeStr r = "" ->
  (sigStr r = "" ->
   Validate parse_layout now v r secret = (false, Some MissingSignature))
  /\ (sigStr r <> "" -> is_Some (hex_DecodeString (sigStr r)) ->
      Validate parse_layout now v r secret = (false, Some MissingTimestamp)).
Proof.
  intros Hn Hts. split.
  - intros Hs. now apply Validate_no_signature.
  - intros Hs [sig Hdec]. now apply (Validate_no_timestamp _ _ _ _ _ sig).
Qed.

(** A request with the header x-signature: deadbeef alone, and one with the
    header accept alone. *)
Lemma C7_witness :
  Validate strict_only sample_time (NewValidator 60)
    (mkRequest "GET" (URL sample_request) (Header_Add ∅ "x-signature" "deadbeef"))
    "supersecret"
  = (false, Some MissingTimestamp)
  /\ Validate strict_only sample_time (NewValidator 60) sample_unsigned "supersecret"
     = (false, Some MissingSignature).
Proof.
  split.
  - apply C7_missing_timestamp;
      [vm_compute; discriminate | reflexivity | vm_compute; discriminate
      | vm_compute; eexists; reflexivity].
  - apply C7_missing_timestamp; [vm_compute; discriminate | reflexivity | reflexivity].
Defined.

(** C7 with the timestamp looked at first fails when the x-signature header
    is absent: the request has a header and no x-timestamp, and the reason
    is the missing signature. *)
Lemma C7_counterexample :
  size (Header sample_unsigned) <> 0%nat
  /\ timeStr sample_unsigned = ""
  /\ Validate strict_only sample_time (NewValidator 60) sample_unsigned "supersecret"
     = (false, Some MissingSignature)
  /\ Validate strict_only sample_time (NewValidator 60) sample_unsigned "supersecret"
     <> (false, Some MissingTimestamp).
Proof. repeat split; vm_compute; (reflexivity || discriminate). Qed.

(** With an x-signature value that is no hex string and no x-timestamp, the
    reason is the signature's encoding. *)
Example not_hex_before_timestamp :
  Validate strict_only sample_time (NewValidator 60)
    (mkRequest "GET" (URL sample_request) (Header_Add ∅ "x-signature" "not-hex"))
    "supersecret"
  = (false, Some InvalidSignatureEncoding).
Proof. vm_compute. reflexivity. Qed.

(** ** The validity window *)

(** The sample request passes every check other than the window's. *)
Lemma sample_signed_otherwise_valid :
  otherwise_valid strict_only sample_signed "supersecret" sample_time.
Proof. repeat split; vm_compute; (reflexivity || discriminate). Qed.

(** The window ends at the 64-bit sum of timestamp and validity, and that
    sum wraps around to a negative number for a validity close to the
    largest [int64]. *)
Example window_end_wraps :
  add64 (Unix sample_time) MaxInt64 = -9223372035106365121.
Proof. reflexivity. Qed.

(** C5, as the code has it.  For a request that passes every other check
    and whose timestamp names the second [T], with [T + validity] an
    [int64] value: validation at a second before [T + validity] accepts,
    and validation at the second [T + validity] or later rejects with the
    expired-signature reason. *)
Theorem C5_window_boundary
    (parse_layout : string -> option time_Time) (now : time_Time)
    (v : validator) (r : http_Request) (secret : string) (T : time_Time) :
  otherwise_valid parse_layout r secret T ->
  fits_int64 (Unix T + validity v) ->
  (Unix now < Unix T + validity v ->
   Validate parse_layout now v r secret = (true, None))
  /\ (Unix T + validity v <= Unix now ->
      Validate parse_layout now v r secret = (false, Some ExpiredSignature)).
Proof.
  intros (Hn & Hs & Hd & Ht & Hp) Hfit.
  pose proof (add64_exact _ _ Hfit) as Hadd. split; intros Hnow.
  - apply (Validate_accepted _ _ _ _ _ T); try assumption. lia.
  - apply (Validate_expired _ _ _ _ _ _ T Hn Hs Hd Ht Hp). lia.
Qed.

(** The sample request under a window of 60 seconds: accepted 59 seconds
    after signing, expired 60 seconds after it. *)
Lemma C5_witness :
  Validate strict_only (mkTime 1748410747 0) (NewValidator 60) sample_signed
    "supersecret" = (true, None)
  /\ Validate strict_only (mkTime 1748410748 0) (NewValidator 60) sample_signed
       "supersecret" = (false, Some ExpiredSignature).
Proof.
  assert (fits_int64 (Unix sample_time + validity (NewValidator 60))) as Hfit
      by (vm_compute; split; discriminate).
  split.
  - apply (C5_window_boundary strict_only (mkTime 1748410747 0) (NewValidator 60)
             sample_signed "supersecret" sample_time
             sample_signed_otherwise_valid Hfit).
    reflexivity.
  - apply (C5_window_boundary strict_only (mkTime 1748410748 0) (NewValidator 60)
             sample_signed "supersecret" sample_time
             sample_signed_otherwise_valid Hfit).
    vm_compute. discriminate.
Defined.

(** C5 without the bound on the sum fails for a validity of [MaxInt64]:
    the sample request passes every other check, it is validated at the
    second it was signed, long before [T + validity], and it is rejected
    as expired. *)
Lemma C5_counterexample :
  otherwise_valid strict_only sample_signed "supersecret" sample_time
  /\ Unix sample_time < Unix sample_time + validity (NewValidator MaxInt64)
  /\ Validate strict_only sample_time (NewValidator MaxInt64) sample_signed
       "supersecret" = (false, Some ExpiredSignature).
Proof.
  split; [exact sample_signed_otherwise_valid|].
  split; vm_compute; reflexivity.
Qed.

(** C6, as the code has it.  For a validity that is not negative and a
    timestamp that names a second [T] after the validator's clock, with
    [T + validity] an [int64] value: [Validate] does not reject the request
    as expired, however far ahead [T] lies, and accepts it when it passes
    the other checks. *)
Theorem C6_future_timestamp
    (parse_layout : string -> option time_Time) (now : time_Time)
    (v : validator) (r : http_Request) (secret : string) (T : time_Time) :
  time_Parse_RFC3339 parse_layout (timeStr r) = Some T ->
  0 <= validity v -> fits_int64 (Unix T + validity v) ->
  Unix now < Unix T ->
  Validate parse_layout now v r secret <> (false, Some ExpiredSignature)
  /\ (otherwise_valid parse_layout r secret T ->
      Validate parse_layout now v r secret = (true, None)).
Proof.
  intros Hp Hv Hfit Hnow.
  pose proof (add64_exact _ _ Hfit) as Hadd. split.
  - unfold Validate. fold (sigStr r) (timeStr r). rewrite Hp, Hadd.
    destruct (Nat.eqb (size (Header r)) 0); [discriminate|].
    destruct (String.eqb (sigStr r) ""); [discriminate|].
    destruct (hex_DecodeString (sigStr r)); [|discriminate].
    destruct (String.eqb (timeStr r) ""); [discriminate|].
    rewrite Z.geb_leb.
    destruct (Z.leb_spec (Unix T + validity v) (Unix now)); [lia|].
    destruct (negb _); discriminate.
  - intros (Hn & Hs & Hd & Ht & _).
    apply (Validate_accepted _ _ _ _ _ T); try assumption. lia.
Qed.

(** The sample request, validated an hour before its timestamp and a year
    before it. *)
Lemma C6_witness :
  Validate strict_only (mkTime 1748407088 0) (NewValidator 60) sample_signed
    "supersecret" = (true, None)
  /\ Validate strict_only (mkTime 1716874688 0) (NewValidator 0) sample_signed
       "supersecret" = (true, None).
Proof.
  assert (time_Parse_RFC3339 strict_only (timeStr sample_signed) = Some sample_time)
    as Hp by (vm_compute; reflexivity).
  split.
  - apply (C6_future_timestamp strict_only (mkTime 1748407088 0) (NewValidator 60)
             sample_signed "supersecret" sample_time Hp);
      [vm_compute; discriminate | vm_compute; split; discriminate | reflexivity
      | exact sample_signed_otherwise_valid].
  - apply (C6_future_timestamp strict_only (mkTime 1716874688 0) (NewValidator 0)
             sample_signed "supersecret" sample_time Hp);
      [vm_compute; discriminate | vm_compute; split; discriminate | reflexivity
      | exact sample_signed_otherwise_valid].
Defined.

(** C6 without the bound on the sum fails for a validity of [MaxInt64]:
    the sample request, validated an hour before the second its timestamp
    names, is rejected as expired. *)
Lemma C6_counterexample :
  time_Parse_RFC3339 strict_only (timeStr sample_signed) = Some sample_time
  /\ Unix (mkTime 1748407088 0) < Unix sample_time
  /\ Validate strict_only (mkTime 1748407088 0) (NewValidator MaxInt64)
       sample_signed "supersecret" = (false, Some ExpiredSignature).
Proof. repeat split; vm_compute; reflexivity. Qed.

(** ** Acceptance and the first failing check *)

(** C2, as the code has it.  When the sum of the second the timestamp
    names and the validity is an [int64] value, [Validate] returns
    [(true, nil)] exactly when the request has a header, the x-signature
    header is present and decodes as hex, the x-timestamp header is present
    and parses, the validator's clock is before timestamp plus validity,
    and the decoded signature is the HMAC-SHA256 of method, path and the
    x-timestamp header as received.  Otherwise it returns [false] with the
    reason of the first of these checks that fails, in this order. *)
Theorem C2_acceptance_iff_all_checks
    (parse_layout : string -> option time_Time) (now : time_Time)
    (v : validator) (r : http_Request) (secret : string) :
  (forall T, time_Parse_RFC3339 parse_layout (timeStr r) = Some T ->
             fits_int64 (Unix T + validity v)) ->
  let mac := hmac_SHA256 (bytes_of_string secret)
               (bytes_of_string (Method r +:+ Path (URL r) +:+ timeStr r)) in
  let verdict := Validate parse_layout now v r secret in
  (verdict = (true, None) <->
   size (Header r) <> 0%nat
   /\ sigStr r <> "" /\ hex_DecodeString (sigStr r) = Some mac
   /\ timeStr r <> ""
   /\ exists T, time_Parse_RFC3339 parse_layout (timeStr r) = Some T
                /\ Unix now < Unix T + validity v)
  /\ (verdict = (true, None) \/ exists e, verdict = (false, Some e))
  /\ (size (Header r) = 0%nat -> verdict = (false, Some MissingHeaders))
  /\ (size (Header r) <> 0%nat -> sigStr r = "" ->
      verdict = (false, Some MissingSignature))
  /\ (size (Header r) <> 0%nat -> sigStr r <> "" ->
      hex_DecodeString (sigStr r) = None ->
      verdict = (false, Some InvalidSignatureEncoding))
  /\ (size (Header r) <> 0%nat -> sigStr r <> "" ->
      is_Some (hex_DecodeString (sigStr r)) -> timeStr r = "" ->
      verdict = (false, Some MissingTimestamp))
  /\ (size (Header r) <> 0%nat -> sigStr r <> "" ->
      is_Some (hex_DecodeString (sigStr r)) -> timeStr r <> "" ->
      time_Parse_RFC3339 parse_layout (timeStr r) = None ->
      verdict = (false, Some InvalidTimestampFormat))
  /\ (forall T, size (Header r) <> 0%nat -> sigStr r <> "" ->
      is_Some (hex_DecodeString (sigStr r)) -> timeStr r <> "" ->
      time_Parse_RFC3339 parse_layout (timeStr r) = Some T ->
      Unix T + validity v <= Unix now ->
      verdict = (false, Some ExpiredSignature))
  /\ (forall T sig, size (Header r) <> 0%nat -> sigStr r <> "" ->
      hex_DecodeString (sigStr r) = Some sig -> timeStr r <> "" ->
      time_Parse_RFC3339 parse_layout (timeStr r) = Some T ->
      Unix now < Unix T + validity v -> sig <> mac ->
      verdict = (false, Some SignatureMismatch)).
Proof.
  intros Hfit mac verdict.
  assert (mac = expectedMAC secret r) as Emac
      by (subst mac; unfold expectedMAC; now rewrite generateSHA256HMAC_concat).
  rewrite Emac. clearbody mac. clear Emac. subst verdict.
  split.
  { split.
    - intros Hok. apply Validate_true_inv in Hok as (Hn & Hs & Ht & Hd & T & Hp & Hw).
      rewrite (add64_exact _ _ (Hfit T Hp)) in Hw. eauto 10.
    - intros (Hn & Hs & Hd & Ht & T & Hp & Hw).
      apply (Validate_accepted _ _ _ _ _ T); try assumption.
      rewrite (add64_exact _ _ (Hfit T Hp)). exact Hw. }
  split; [apply Validate_outcome|].
  split; [apply Validate_no_headers|].
  split; [apply Validate_no_signature|].
  split; [apply Validate_bad_signature|].
  split; [intros Hn Hs [sig Hd] Ht; now apply (Validate_no_timestamp _ _ _ _ _ sig)|].
  split; [intros Hn Hs [sig Hd] Ht Hp; now apply (Validate_bad_timestamp _ _ _ _ _ sig)|].
  split.
  - intros T Hn Hs [sig Hd] Ht Hp Hw.
    apply (Validate_expired _ _ _ _ _ sig T); try assumption.
    rewrite (add64_exact _ _ (Hfit T Hp)). exact Hw.
  - intros T sig Hn Hs Hd Ht Hp Hw Hne.
    apply (Validate_mismatch _ _ _ _ _ sig T); try assumption.
    rewrite (add64_exact _ _ (Hfit T Hp)). exact Hw.
Qed.

(** The sample request under a window of 60 seconds, validated 59 seconds
    after signing with the right secret. *)
Lemma C2_witness :
  Validate strict_only (mkTime 1748410747 0) (NewValidator 60) sample_signed
    "supersecret" = (true, None).
Proof.
  assert (forall T, time_Parse_RFC3339 strict_only (timeStr sample_signed) = Some T ->
                    fits_int64 (Unix T + validity (NewValidator 60))) as Hfit.
  { intros T HT. vm_compute in HT. injection HT as <-.
    vm_compute. split; discriminate. }
  apply (C2_acceptance_iff_all_checks strict_only (mkTime 1748410747 0)
           (NewValidator 60) sample_signed "supersecret" Hfit).
  split; [vm_compute; discriminate|].
  split; [vm_compute; discriminate|].
  split; [vm_compute; reflexivity|].
  split; [vm_compute; discriminate|].
  exists sample_time. split; vm_compute; reflexivity.
Defined.

(** C2 without the bound on the sum fails for a validity of [MaxInt64]:
    every condition of the equivalence holds for the sample request at the
    second it was signed, and [Validate] does not accept it. *)
Lemma C2_counterexample :
  size (Header sample_signed) <> 0%nat
  /\ sigStr sample_signed <> ""
  /\ hex_DecodeString (sigStr sample_signed)
     = Some (hmac_SHA256 (bytes_of_string "supersecret")
               (bytes_of_string
                  (Method sample_signed +:+ Path (URL sample_signed)
                     +:+ timeStr sample_signed)))
  /\ timeStr sample_signed <> ""
  /\ time_Parse_RFC3339 strict_only (timeStr sample_signed) = Some sample_time
  /\ Unix sample_time < Unix sample_time + validity (NewValidator MaxInt64)
  /\ Validate strict_only sample_time (NewValidator MaxInt64) sample_signed
       "supersecret" = (false, Some ExpiredSignature)
  /\ Validate strict_only sample_time (NewValidator MaxInt64) sample_signed
       "supersecret" <> (true, None).
Proof. repeat split; vm_compute; (reflexivity || discriminate). Qed.

(** ** Round trip *)

(** C1, as the code has it.  A request with no x-signature and no
    x-timestamp value, signed at an instant RFC 3339 can express and then
    validated with the signer's secret under a validity of at least one
    second, is accepted at every second before signing time plus validity,
    when that sum is an [int64] value. *)
Theorem C1_round_trip
    (parse_layout : string -> option time_Time) (now now' : time_Time)
    (g : generator) (v : validator) (r : http_Request) :
  Header_Values (Header r) "x-signature" = [] ->
  Header_Values (Header r) "x-timestamp" = [] ->
  rfc3339_representable now ->
  1 <= validity v -> Unix now + validity v <= MaxInt64 ->
  Unix now' < Unix now + validity v ->
  Validate parse_layout now' v (AddAuthHeaders now g r) (generator_secret g)
  = (true, None).
Proof.
  intros Hsig Hts Hrep Hv Hmax Hnow.
  pose proof (AddAuthHeaders_reads_signature now g r Hsig) as Gs.
  pose proof (AddAuthHeaders_reads_timestamp now g r Hts) as Gt.
  set (r' := AddAuthHeaders now g r) in *.
  assert (time_Parse_RFC3339 parse_layout (timeStr r') = Some now) as Hp.
  { unfold time_Parse_RFC3339. rewrite Gt. now rewrite parseRFC3339_Format. }
  assert (hex_DecodeString (sigStr r') = Some (expectedMAC (generator_secret g) r'))
    as Hd.
  { unfold expectedMAC. rewrite Gs, Gt. unfold GenerateSHA256HMAC.
    now rewrite hex_Decode_Encode. }
  assert (fits_int64 (Unix now + validity v)) as Hfit.
  { destruct Hrep as (Hr & _ & Ho). unfold fits_int64, MinInt64, MaxInt64, Unix in *.
    lia. }
  apply (Validate_accepted _ _ _ _ _ now); try assumption.
  - apply AddAuthHeaders_nonempty.
  - rewrite Gs. intros E. apply (f_equal String.length) in E.
    rewrite GenerateSHA256HMAC_length in E. discriminate.
  - rewrite Gt. apply time_Format_nonempty.
  - rewrite (add64_exact _ _ Hfit). exact Hnow.
Qed.

(** The test of the package: the sample request, signed and validated at
    once under a window of 60 seconds. *)
Lemma C1_witness :
  Validate strict_only sample_time (NewValidator 60) sample_signed "supersecret"
  = (true, None).
Proof.
  apply (C1_round_trip strict_only sample_time sample_time sample_generator
           (NewValidator 60) sample_request);
    try reflexivity; try (vm_compute; discriminate).
  repeat split; vm_compute; (reflexivity || discriminate).
Defined.

(** C1 without the bound on the sum fails for a validity of [MaxInt64]:
    the sample request carries no authentication header, it is signed and
    validated at the same second with the signer's secret, the validity is
    at least one second, and it is rejected as expired. *)
Lemma C1_counterexample :
  Header_Values (Header sample_request) "x-signature" = []
  /\ Header_Values (Header sample_request) "x-timestamp" = []
  /\ 1 <= validity (NewValidator MaxInt64)
  /\ Unix sample_time < Unix sample_time + validity (NewValidator MaxInt64)
  /\ Validate strict_only sample_time (NewValidator MaxInt64)
       (AddAuthHeaders sample_time sample_generator sample_request)
       (generator_secret sample_generator)
     = (false, Some ExpiredSignature).
Proof. repeat split; vm_compute; (reflexivity || discriminate). Qed.

(** * Further properties of the package *)

(** X1. A request whose x-signature header decodes to bytes other than the
    HMAC-SHA256 of method, path and the x-timestamp header under the
    validator's secret is never accepted. *)
Theorem X1_other_signature_never_accepted
    (parse_layout : string -> option time_Time) (now : time_Time)
    (v : validator) (r : http_Request) (secret : string) (sig : list byte) :
  hex_DecodeString (sigStr r) = Some sig ->
  sig <> hmac_SHA256 (bytes_of_string secret)
           (bytes_of_string (Method r +:+ Path (URL r) +:+ timeStr r)) ->
  Validate parse_layout now v r secret <> (true, None).
Proof.
  intros Hd Hne Hok. apply Validate_true_inv in Hok as (_ & _ & _ & Hd' & _).
  rewrite Hd in Hd'. injection Hd' as ->. apply Hne.
  unfold expectedMAC. now rewrite generateSHA256HMAC_concat.
Qed.

(** The sample request is not accepted under another secret. *)
Lemma X1_witness :
  Validate strict_only sample_time (NewValidator 60) sample_signed "supersecrex"
  <> (true, None).
Proof.
  assert (hex_DecodeString (sigStr sample_signed)
          = Some (expectedMAC "supersecret" sample_signed)) as Hd
      by (vm_compute; reflexivity).
  apply (X1_other_signature_never_accepted strict_only sample_time (NewValidator 60)
           sample_signed "supersecrex" _ Hd).
  vm_compute. discriminate.
Defined.

(** X2. The verdict depends on method and path through their concatenation
    alone: two requests with the same headers whose method followed by path
    spell the same bytes get the same verdict. *)
Theorem X2_field_boundary_not_signed
    (parse_layout : string -> option time_Time) (now : time_Time)
    (v : validator) (r r' : http_Request) (secret : string) :
  Header r' = Header r ->
  Method r' +:+ Path (URL r') = Method r +:+ Path (URL r) ->
  Validate parse_layout now v r' secret = Validate parse_layout now v r secret.
Proof.
  intros Hh Hcat. unfold Validate. rewrite Hh.
  assert (forall t, generateSHA256HMAC secret [Method r'; Path (URL r'); t]
                    = generateSHA256HMAC secret [Method r; Path (URL r); t]) as Hmac.
  { intros t. rewrite !generateSHA256HMAC_concat.
    rewrite !append_assoc. now rewrite Hcat. }
  now rewrite Hmac.
Qed.

(** The headers of the sample request, signed for GET /resource, are
    accepted on a request with method GE and path T/resource. *)
Lemma X2_witness :
  Validate strict_only sample_time (NewValidator 60)
    (mkRequest "GE" (mkURL "https" "api.example.com" "T/resource" "")
               (Header sample_signed)) "supersecret"
  = (true, None).
Proof.
  transitivity (Validate strict_only sample_time (NewValidator 60) sample_signed
                  "supersecret").
  - apply X2_field_boundary_not_signed; reflexivity.
  - vm_compute. reflexivity.
Defined.

(** X3. The timestamp the signer writes is read back by [time.Parse] as the
    instant and zone it was written from, for every instant RFC 3339 can
    express. *)
Theorem X3_timestamp_read_back
    (parse_layout : string -> option time_Time) (t : time_Time) :
  rfc3339_representable t ->
  time_Parse_RFC3339 parse_layout (time_Format_RFC3339 t) = Some t.
Proof.
  intros Hrep. unfold time_Parse_RFC3339. now rewrite parseRFC3339_Format.
Qed.

(** Half past five in the morning of 28 May 2025 in a zone at +05:30. *)
Lemma X3_witness :
  time_Parse_RFC3339 strict_only "2025-05-28T11:08:08+05:30"
  = Some (mkTime 1748410688 19800).
Proof.
  apply (X3_timestamp_read_back strict_only (mkTime 1748410688 19800)).
  repeat split; vm_compute; (reflexivity || discriminate).
Defined.

(** X4. [Validate] does not read the x-api-key-id header: on a request with
    an x-signature value, the verdict is the same for every header map that
    differs from the request's in that header alone. *)
Theorem X4_identifier_not_validated
    (parse_layout : string -> option time_Time) (now : time_Time)
    (v : validator) (r : http_Request) (secret : string) (h : http_Header) :
  (forall k : string, k <> "X-Api-Key-Id" -> h !! k = Header r !! k) ->
  sigStr r <> "" ->
  Validate parse_layout now v (mkRequest (Method r) (URL r) h) secret
  = Validate parse_layout now v r secret.
Proof.
  intros Hsame Hsig.
  assert (Header_Values h "x-signature" = Header_Values (Header r) "x-signature") as Es
      by (unfold Header_Values; now rewrite Hsame).
  assert (Header_Values h "x-timestamp" = Header_Values (Header r) "x-timestamp") as Et
      by (unfold Header_Values; now rewrite Hsame).
  assert (Header_Values (Header r) "x-signature" <> []) as Hne.
  { intros E. apply Hsig. unfold sigStr, Header_Get. now rewrite E. }
  pose proof (Header_Values_nonempty_size _ _ Hne) as Hn.
  rewrite <- Es in Hne. pose proof (Header_Values_nonempty_size _ _ Hne) as Hn'.
  unfold Validate, Header_Get. cbn [Method URL Header]. rewrite Es, Et.
  apply Nat.eqb_neq in Hn, Hn'. now rewrite Hn, Hn'.
Qed.

(** The sample request with its x-api-key-id header removed is accepted. *)
Lemma X4_witness :
  Header_Values (delete "X-Api-Key-Id" (Header sample_signed)) "x-api-key-id" = []
  /\ Validate strict_only sample_time (NewValidator 60)
       (mkRequest "GET" (URL sample_request)
                  (delete "X-Api-Key-Id" (Header sample_signed))) "supersecret"
     = (true, None).
Proof.
  split; [vm_compute; reflexivity|].
  transitivity (Validate strict_only sample_time (NewValidator 60) sample_signed
                  "supersecret").
  - apply (X4_identifier_not_validated strict_only sample_time (NewValidator 60)
             sample_signed "supersecret").
    + intros k Hk. now apply lookup_delete_ne.
    + vm_compute. discriminate.
  - vm_compute. reflexivity.
Defined.

(** X5. Endpoint pinning.  A client made by [NewClient] hands its transport a
    request with the scheme and the host of the configured endpoint,
    whatever the caller set, and with the caller's path; the signature it
    appends is over the caller's method and path. *)
Theorem X5_endpoint_pinning
    (url_Parse : string -> option url_URL) (endpoint apiKey secret : string)
    (allowInsecure : bool) (c : client.client) (now : time_Time)
    (req : http_Request) :
  client.NewClient url_Parse endpoint apiKey secret allowInsecure = Some c ->
  exists (u : url_URL) (sent : http_Request),
    url_Parse endpoint = Some u
    /\ client.Do_request now c req = Some sent
    /\ Scheme (URL sent) = Scheme u /\ Host (URL sent) = Host u
    /\ Path (URL sent) = Path (URL req) /\ Method sent = Method req
    /\ last (Header_Values (Header sent) "x-signature")
       = Some (GenerateSHA256HMAC secret
                 [Method req; Path (URL req); time_Format_RFC3339 now])
    /\ last (Header_Values (Header sent) "x-api-key-id") = Some apiKey.
Proof.
  unfold client.NewClient. destruct (url_Parse endpoint) as [u|]; [|discriminate].
  intros [= <-]. exists u. eexists. split; [reflexivity|].
  unfold client.Do_request. cbn [client.url client.hGenerator].
  split; [reflexivity|]. repeat (split; [reflexivity|]).
  rewrite AddAuthHeaders_signature, AddAuthHeaders_key_id, !last_snoc.
  split; reflexivity.
Qed.

(** A caller's request for another host, sent through a client configured
    for https://api.example.com. *)
Lemma X5_witness :
  exists sent : http_Request,
    client.Do_request sample_time
      (client.mkClient "https://api.example.com" "test-key" "supersecret"
         (Some (mkURL "https" "api.example.com" "" "")) sample_generator)
      (mkRequest "GET" (mkURL "http" "evil.example.org" "/resource" "") ∅)
    = Some sent
    /\ Scheme (URL sent) = "https" /\ Host (URL sent) = "api.example.com"
    /\ Path (URL sent) = "/resource".
Proof.
  destruct (X5_endpoint_pinning
              (fun _ => Some (mkURL "https" "api.example.com" "" ""))
              "https://api.example.com" "test-key" "supersecret" false _
              sample_time
              (mkRequest "GET" (mkURL "http" "evil.example.org" "/resource" "") ∅)
              eq_refl)
    as (u & sent & Hu & Hsent & Hs & Hh & Hp & _).
  injection Hu as <-. exists sent. auto.
Defined.

(** X6. [NewRoute] keeps the URL, maps the eight method names HEAD, POST,
    PUT, PATCH, DELETE, CONNECT, OPTIONS and TRACE to their constants, and
    maps every other string, GET among them, to [route.GET]. *)
Theorem X6_NewRoute_methods (url method : string) :
  model.Url (model.NewRoute url method) = url
  /\ (model.Method (model.NewRoute url method) <> route.GET <->
      method ∈ ["HEAD"; "POST"; "PUT"; "PATCH"; "DELETE"; "CONNECT"; "OPTIONS"; "TRACE"])
  /\ model.Method (model.NewRoute url "HEAD") = route.HEAD
  /\ model.Method (model.NewRoute url "POST") = route.POST
  /\ model.Method (model.NewRoute url "PUT") = route.PUT
  /\ model.Method (model.NewRoute url "PATCH") = route.PATCH
  /\ model.Method (model.NewRoute url "DELETE") = route.DELETE
  /\ model.Method (model.NewRoute url "CONNECT") = route.CONNECT
  /\ model.Method (model.NewRoute url "OPTIONS") = route.OPTIONS
  /\ model.Method (model.NewRoute url "TRACE") = route.TRACE
  /\ model.Method (model.NewRoute url "GET") = route.GET
  /\ model.Method (model.NewRoute url "post") = route.GET.
Proof.
  split; [reflexivity|]. split; [|repeat split; reflexivity].
  unfold model.NewRoute. cbn [model.Method].
  rewrite !elem_of_cons, elem_of_nil.
  repeat match goal with
         | |- context [String.eqb method ?s] =>
             destruct (String.eqb_spec method s) as [->|?]
         end; intuition congruence.
Qed.

(** ** The signature on the wire *)

Lemma hex_digits_lower (b : byte) :
  hex_digit (Byte.to_N b / 16) ∈ String.list_ascii_of_string hextable
  /\ hex_digit (Byte.to_N b mod 16) ∈ String.list_ascii_of_string hextable.
Proof.
  destruct b; split; vm_compute;
    repeat (first [apply list_elem_of_here | apply list_elem_of_further]).
Qed.

Lemma hex_EncodeToString_lower (bs : list byte) :
  Forall (fun c => c ∈ String.list_ascii_of_string hextable)
         (String.list_ascii_of_string (hex_EncodeToString bs)).
Proof.
  induction bs as [|b bs IH]; cbn [hex_EncodeToString String.list_ascii_of_string].
  - constructor.
  - destruct (hex_digits_lower b) as [Hhi Hlo].
    constructor; [exact Hhi|]. constructor; [exact Hlo | exact IH].
Qed.

(** X7. Whatever the secret and the fields, [GenerateSHA256HMAC] returns 64
    characters, each one of 0123456789abcdef, and [hex.DecodeString] reads
    them back as the 32 bytes [generateSHA256HMAC] returns. *)
Theorem X7_signature_format (secret : string) (v : list string) :
  String.length (GenerateSHA256HMAC secret v) = 64%nat
  /\ Forall (fun c => c ∈ String.list_ascii_of_string "0123456789abcdef")
            (String.list_ascii_of_string (GenerateSHA256HMAC secret v))
  /\ hex_DecodeString (GenerateSHA256HMAC secret v)
     = Some (generateSHA256HMAC secret v)
  /\ length (generateSHA256HMAC secret v) = 32%nat.
Proof.
  split; [apply GenerateSHA256HMAC_length|].
  split; [apply hex_EncodeToString_lower|].
  split; [apply hex_Decode_Encode|].
  apply hmac_SHA256_length.
Qed.

(** ** Hex digits in either case *)

Lemma fromHexChar_toUpper (c : ascii) : fromHexChar (toUpper c) = fromHexChar c.
Proof.
  rewrite <- (ascii_of_byte_of_ascii c). destruct (byte_of_ascii c); reflexivity.
Qed.

Lemma hex_DecodeString_ToUpper (s : string) :
  hex_DecodeString (strings_ToUpper s) = hex_DecodeString s.
Proof.
  revert s. fix IH 1. intros [|p [|q rest]]; [reflexivity | reflexivity |].
  cbn [strings_ToUpper hex_DecodeString].
  rewrite !fromHexChar_toUpper, (IH rest). reflexivity.
Qed.

Lemma Header_Set_nonempty (h : http_Header) (key value : string) :
  size (Header_Set h key value) <> 0%nat.
Proof.
  unfold Header_Set. intros Hs. apply map_size_empty_inv in Hs.
  revert Hs. apply insert_non_empty.
Qed.

(** X8. [Validate] reads the hex digits of the signature in either case: on
    a request with an x-signature value, replacing that header by its upper
    case spelling leaves the verdict as it was. *)
Theorem X8_signature_case_ignored
    (parse_layout : string -> option time_Time) (now : time_Time)
    (v : validator) (r : http_Request) (secret : string) :
  sigStr r <> "" ->
  Validate parse_layout now v
    (mkRequest (Method r) (URL r)
       (Header_Set (Header r) "x-signature" (strings_ToUpper (sigStr r))))
    secret
  = Validate parse_layout now v r secret.
Proof.
  intros Hsig.
  assert (Header_Values (Header r) "x-signature" <> []) as Hne.
  { intros E. apply Hsig. unfold sigStr, Header_Get. now rewrite E. }
  pose proof (Header_Values_nonempty_size _ _ Hne) as Hn.
  pose proof (Header_Set_nonempty (Header r) "x-signature"
                (strings_ToUpper (sigStr r))) as Hn'.
  unfold Validate. cbn [Method URL Header].
  apply Nat.eqb_neq in Hn, Hn'. rewrite Hn, Hn'.
  assert (Header_Get (Header_Set (Header r) "x-signature" (strings_ToUpper (sigStr r)))
            "x-signature" = strings_ToUpper (sigStr r)) as ->.
  { unfold Header_Get, Header_Values, Header_Set. now rewrite lookup_insert_eq. }
  assert (Header_Get (Header_Set (Header r) "x-signature" (strings_ToUpper (sigStr r)))
            "x-timestamp" = Header_Get (Header r) "x-timestamp") as ->.
  { unfold Header_Get, Header_Values, Header_Set.
    now rewrite lookup_insert_ne by discriminate. }
  fold (sigStr r). rewrite hex_DecodeString_ToUpper.
  apply String.eqb_neq in Hsig. rewrite Hsig.
  destruct (sigStr r) as [|c rest]; [discriminate|]. reflexivity.
Qed.

(** The sample request with its signature in upper case is accepted. *)
Lemma X8_witness :
  Validate strict_only sample_time (NewValidator 60)
    (mkRequest "GET" (URL sample_request)
       (Header_Set (Header sample_signed) "x-signature"
          (strings_ToUpper (sigStr sample_signed))))
    "supersecret"
  = (true, None).
Proof.
  transitivity (Validate strict_only sample_time (NewValidator 60) sample_signed
                  "supersecret").
  - apply (X8_signature_case_ignored strict_only sample_time (NewValidator 60)
             sample_signed "supersecret").
    vm_compute. discriminate.
  - vm_compute. reflexivity.
Defined.

(** ** The window and the clock *)

(** X9. The verdict moves one way with the clock, whatever the validity:
    a request accepted at one second is accepted at every earlier second,
    and one rejected as expired stays expired at every later second. *)
Theorem X9_window_monotone
    (parse_layout : string -> option time_Time) (now now' : time_Time)
    (v : validator) (r : http_Request) (secret : string) :
  Unix now' <= Unix now ->
  (Validate parse_layout now v r secret = (true, None) ->
   Validate parse_layout now' v r secret = (true, None))
  /\ (Validate parse_layout now' v r secret = (false, Some ExpiredSignature) ->
      Validate parse_layout now v r secret = (false, Some ExpiredSignature)).
Proof.
  intros Hle. unfold Validate.
  destruct (Nat.eqb (size (Header r)) 0); [split; discriminate|].
  destruct (String.eqb _ ""); [split; discriminate|].
  destruct (hex_DecodeString _) as [sig|]; [|split; discriminate].
  destruct (String.eqb _ ""); [split; discriminate|].
  destruct (time_Parse_RFC3339 _ _) as [T|]; [|split; discriminate].
  rewrite !Z.geb_leb.
  destruct (Z.leb_spec (add64 (Unix T) (validity v)) (Unix now));
    destruct (Z.leb_spec (add64 (Unix T) (validity v)) (Unix now'));
    try lia; split; try discriminate; try reflexivity;
    destruct (negb _); (discriminate || reflexivity).
Qed.

(** The sample request, accepted a second before the window ends, is
    accepted at the second it was signed. *)
Lemma X9_witness :
  Validate strict_only sample_time (NewValidator 60) sample_signed "supersecret"
  = (true, None).
Proof.
  apply (X9_window_monotone strict_only (mkTime 1748410747 0) sample_time
           (NewValidator 60) sample_signed "supersecret").
  - vm_compute. discriminate.
  - vm_compute. reflexivity.
Defined.

(** X10. The life of a signed request.  A request without x-signature and
    x-timestamp values, signed at an instant RFC 3339 can express and
    validated with the signer's secret, is accepted at the seconds before
    signing second plus validity and rejected as expired from that second
    on, when the sum is an [int64] value.  With a validity of zero or less
    it is never accepted at or after the second it was signed. *)
Theorem X10_signed_request_lifetime
    (parse_layout : string -> option time_Time) (now now' : time_Time)
    (g : generator) (v : validator) (r : http_Request) :
  Header_Values (Header r) "x-signature" = [] ->
  Header_Values (Header r) "x-timestamp" = [] ->
  rfc3339_representable now ->
  fits_int64 (Unix now + validity v) ->
  Validate parse_layout now' v (AddAuthHeaders now g r) (generator_secret g)
  = if Unix now' <? Unix now + validity v then (true, None)
    else (false, Some ExpiredSignature).
Proof.
  intros Hsig Hts Hrep Hfit.
  pose proof (AddAuthHeaders_reads_signature now g r Hsig) as Gs.
  pose proof (AddAuthHeaders_reads_timestamp now g r Hts) as Gt.
  set (r' := AddAuthHeaders now g r) in *.
  assert (time_Parse_RFC3339 parse_layout (timeStr r') = Some now) as Hp.
  { unfold time_Parse_RFC3339. rewrite Gt. now rewrite parseRFC3339_Format. }
  assert (hex_DecodeString (sigStr r') = Some (expectedMAC (generator_secret g) r'))
    as Hd.
  { unfold expectedMAC. rewrite Gs, Gt. unfold GenerateSHA256HMAC.
    now rewrite hex_Decode_Encode. }
  assert (sigStr r' <> "") as Hs.
  { rewrite Gs. intros E. apply (f_equal String.length) in E.
    rewrite GenerateSHA256HMAC_length in E. discriminate. }
  assert (timeStr r' <> "") as Ht by (rewrite Gt; apply time_Format_nonempty).
  pose proof (AddAuthHeaders_nonempty now g r) as Hn. fold r' in Hn.
  rewrite (Validate_parsed _ _ _ _ _ _ now Hn Hs Hd Ht Hp).
  rewrite (add64_exact _ _ Hfit), Z.geb_leb.
  destruct (Z.leb_spec (Unix now + validity v) (Unix now'));
    destruct (Z.ltb_spec (Unix now') (Unix now + validity v)); try lia;
    [reflexivity|].
  assert (hmac_Equal (expectedMAC (generator_secret g) r')
            (expectedMAC (generator_secret g) r') = true) as ->
      by now apply hmac_Equal_iff.
  reflexivity.
Qed.

(** The sample request under a validity of zero, validated at the second it
    was signed: expired. *)
Lemma X10_witness :
  Validate strict_only sample_time (NewValidator 0) sample_signed "supersecret"
  = (false, Some ExpiredSignature).
Proof.
  apply (X10_signed_request_lifetime strict_only sample_time sample_time
           sample_generator (NewValidator 0) sample_request);
    try reflexivity.
  - repeat split; vm_compute; (reflexivity || discriminate).
  - vm_compute. split; discriminate.
Defined.

(** ** Sending a request again *)

Lemma Validate_same_reads parse_layout now v (r r' : http_Request) secret :
  Method r' = Method r -> Path (URL r') = Path (URL r) ->
  sigStr r' = sigStr r -> timeStr r' = timeStr r ->
  size (Header r) <> 0%nat -> size (Header r') <> 0%nat ->
  Validate parse_layout now v r' secret = Validate parse_layout now v r secret.
Proof.
  intros Hm Hp Hs Ht Hn Hn'. unfold Validate.
  fold (sigStr r') (timeStr r') (sigStr r) (timeStr r).
  apply Nat.eqb_neq in Hn, Hn'. now rewrite Hn, Hn', Hs, Ht, Hm, Hp.
Qed.

(** X11. A request sent twice through the same client is judged by its
    first signature: the second [Do] appends its headers behind those of
    the first, so at every clock, validity and secret [Validate] returns
    for the request of the second call what it returns for the request of
    the first. *)
Theorem X11_second_Do_does_not_refresh
    (parse_layout : string -> option time_Time) (t1 t2 : time_Time)
    (c : client.client) (req sent1 : http_Request) :
  client.Do_request t1 c req = Some sent1 ->
  exists sent2 : http_Request,
    client.Do_request t2 c sent1 = Some sent2
    /\ sigStr sent2 = sigStr sent1 /\ timeStr sent2 = timeStr sent1
    /\ forall (now : time_Time) (v : validator) (secret : string),
         Validate parse_layout now v sent2 secret
         = Validate parse_layout now v sent1 secret.
Proof.
  unfold client.Do_request. destruct (client.url c) as [u|]; [|discriminate].
  intros [= <-]. eexists. split; [reflexivity|].
  set (g := client.hGenerator c).
  set (r1 := mkRequest (Method req) _ (Header req)).
  set (s1 := AddAuthHeaders t1 g r1).
  set (r2 := mkRequest (Method s1) _ (Header s1)).
  assert (Header_Values (Header r2) "x-signature" <> []) as Hsig.
  { subst r2 s1. cbn [Header]. rewrite AddAuthHeaders_signature.
    intros E. now apply app_eq_nil in E as [_ ?]. }
  assert (Header_Values (Header r2) "x-timestamp" <> []) as Hts.
  { subst r2 s1. cbn [Header]. rewrite AddAuthHeaders_timestamp.
    intros E. now apply app_eq_nil in E as [_ ?]. }
  assert (sigStr (AddAuthHeaders t2 g r2) = sigStr s1) as Es
      by (unfold sigStr; now rewrite AddAuthHeaders_Get_keep).
  assert (timeStr (AddAuthHeaders t2 g r2) = timeStr s1) as Et
      by (unfold timeStr; now rewrite AddAuthHeaders_Get_keep).
  split; [assumption|]. split; [assumption|].
  intros now v secret. apply Validate_same_reads; try assumption; try reflexivity.
  - apply AddAuthHeaders_nonempty.
  - apply AddAuthHeaders_nonempty.
Qed.

(** The sample request sent at the sample time and again a minute later
    through a client for https://api.example.com: the validator reads the
    timestamp of the first sending. *)
Lemma X11_witness :
  exists sent2 : http_Request,
    client.Do_request (mkTime 1748410748 0)
      (client.mkClient "https://api.example.com" "test-key" "supersecret"
         (Some (mkURL "https" "api.example.com" "" "")) sample_generator)
      sample_signed
    = Some sent2
    /\ timeStr sent2 = "2025-05-28T05:38:08Z".
Proof.
  destruct (X11_second_Do_does_not_refresh strict_only sample_time
              (mkTime 1748410748 0)
              (client.mkClient "https://api.example.com" "test-key" "supersecret"
                 (Some (mkURL "https" "api.example.com" "" "")) sample_generator)
              sample_request sample_signed eq_refl)
    as (sent2 & Hdo & _ & Ht & _).
  exists sent2. split; [exact Hdo|]. rewrite Ht. vm_compute. reflexivity.
Defined.

(** ** The route table *)

Section RouteTableFacts.

Variables (StoreClient StoreCollection world InitError : Type).
Variable GetCollection :
  StoreClient -> string -> string -> world -> StoreCollection * world.
Variable Initialize : StoreCollection -> world -> option InitError * world.

Local Abbreviation RouteTable := (route.RouteTable StoreCollection).
Local Abbreviation state := (route.state StoreCollection world).
Local Abbreviation call := (route.call StoreClient).
Local Abbreviation GetRouteTable :=
  (route.GetRouteTable (StoreCollection := StoreCollection) (world := world) InitError).
Local Abbreviation LocateRouteTable := (route.LocateRouteTable GetCollection Initialize).
Local Abbreviation run := (route.run GetCollection Initialize).
Local Abbreviation found :=
  (fun t : RouteTable => (Some t, @None (route.error InitError))).

(** Once the variable is set, no call changes it or touches the database. *)
Lemma run_initialized (t : RouteTable) (w : world) (calls : list call) :
  run calls (route.mkState (Some t) w)
  = (map (fun _ => found t) calls, route.mkState (Some t) w).
Proof.
  induction calls as [|c calls IH]; [reflexivity|].
  cbn [route.run map]. destruct c; cbn; rewrite IH; reflexivity.
Qed.

Lemma LocateRouteTable_found (client : StoreClient) (st st1 : state)
    (t : RouteTable) (e : option (route.error InitError)) :
  LocateRouteTable client st = ((Some t, e), st1) ->
  e = None /\ route.routeTable st1 = Some t.
Proof.
  unfold route.LocateRouteTable. destruct st as [[t0|] w]; cbn.
  - intros [= -> <- <-]. auto.
  - destruct (GetCollection _ _ _ w) as [c w1].
    destruct (Initialize c w1) as [[err|] w2]; [discriminate|].
    intros [= <- <- <-]. auto.
Qed.

(** X12. After one successful [LocateRouteTable], every later call of
    [GetRouteTable] and of [LocateRouteTable], with whatever client, returns
    the table of that first call and no error, and none of them reads or
    changes the database. *)
Theorem X12_route_table_fixed_once_located
    (client : StoreClient) (st st1 : state) (t : RouteTable)
    (calls : list call) :
  LocateRouteTable client st = (found t, st1) ->
  run calls st1 = (map (fun _ => found t) calls, st1).
Proof.
  intros Hloc. apply LocateRouteTable_found in Hloc as [_ Ht].
  destruct st1 as [rt w]. cbn in Ht. subst rt. apply run_initialized.
Qed.

(** X13. One table at most: in any sequence of calls, from any state, all
    the tables returned are the same, and a call that returns a table
    returns no error. *)
Theorem X13_route_table_singleton
    (st : state) (calls : list call) (t1 t2 : RouteTable)
    (e1 e2 : option (route.error InitError)) :
  (Some t1, e1) ∈ (run calls st).1 -> (Some t2, e2) ∈ (run calls st).1 ->
  t1 = t2 /\ e1 = None /\ e2 = None.
Proof.
  revert st. induction calls as [|c calls IH]; intros st.
  { cbn. intros H1. now apply elem_of_nil in H1. }
  destruct st as [[t|] w].
  - rewrite run_initialized. cbn [fst].
    intros H1 H2. apply list_elem_of_fmap in H1 as (_ & [= -> ->] & _).
    apply list_elem_of_fmap in H2 as (_ & [= -> ->] & _). auto.
  - cbn [route.run]. destruct (route.step _ _ c _) as [r st1] eqn:Hstep.
    destruct (run calls st1) as [rs st2] eqn:Hrun. cbn [fst].
    assert (rs = (run calls st1).1) as Hrs by now rewrite Hrun.
    destruct r as [[t|] e].
    + assert (e = None /\ route.routeTable st1 = Some t) as [-> Ht].
      { destruct c as [|client]; [cbn in Hstep; discriminate|].
        exact (LocateRouteTable_found client _ _ _ _ Hstep). }
      destruct st1 as [rt w1]. cbn in Ht. subst rt.
      rewrite run_initialized in Hrs. cbn [fst] in Hrs. subst rs.
      intros H1 H2.
      assert (forall t' e', (Some t', e') ∈ found t :: map (fun _ => found t) calls ->
                            t' = t /\ e' = None) as Hall.
      { intros t' e' H. apply elem_of_cons in H as [[= -> ->]|H]; [auto|].
        apply list_elem_of_fmap in H as (_ & [= -> ->] & _). auto. }
      destruct (Hall _ _ H1) as [-> ->]. destruct (Hall _ _ H2) as [-> ->]. auto.
    + subst rs. intros H1 H2.
      apply elem_of_cons in H1 as [[=]|H1]. apply elem_of_cons in H2 as [[=]|H2].
      exact (IH st1 H1 H2).
Qed.

(** X14. A failed initialisation is not remembered.  When
    [LocateRouteTable] returns an error, the error is the one
    [Initialize] gave, the variable is still unset, [GetRouteTable] answers
    "route table not found", and the next [LocateRouteTable] asks the store
    again. *)
Theorem X14_route_table_failure_not_cached
    (client client' : StoreClient) (st st1 : state)
    (e : route.error InitError) :
  LocateRouteTable client st = ((None, Some e), st1) ->
  (exists ie : InitError, e = route.InitFailed ie)
  /\ route.routeTable st = None /\ route.routeTable st1 = None
  /\ GetRouteTable st1
     = ((None, Some (route.NotFound "route table not found")), st1)
  /\ LocateRouteTable client' st1
     = (let (c, w1) := GetCollection client' "services" "routes" (route.db st1) in
        let (err, w2) := Initialize c w1 in
        match err with
        | Some ie => ((None, Some (route.InitFailed ie)), route.mkState None w2)
        | None => (found (route.mkRouteTable c),
                   route.mkState (Some (route.mkRouteTable c)) w2)
        end).
Proof.
  unfold route.LocateRouteTable at 1. destruct st as [[t0|] w]; cbn; [discriminate|].
  destruct (GetCollection _ _ _ w) as [c w1].
  destruct (Initialize c w1) as [[err|] w2]; [|discriminate].
  intros [= <- <-]. split; [eauto|]. repeat split.
Qed.

End RouteTableFacts.

(** Against the sample store: the first [LocateRouteTable] fails, the
    second succeeds, and from then on the table is the one of client "a",
    also for client "b". *)
Lemma X12_witness :
  route.run sample_GetCollection sample_Initialize
    [route.Get; route.Locate "b"; route.Get]
    (route.mkState (Some (route.mkRouteTable "a/services/routes")) 2%nat)
  = ([(Some (route.mkRouteTable "a/services/routes"), None);
      (Some (route.mkRouteTable "a/services/routes"), None);
      (Some (route.mkRouteTable "a/services/routes"), None)],
     route.mkState (Some (route.mkRouteTable "a/services/routes")) 2%nat).
Proof.
  exact (X12_route_table_fixed_once_located string string nat string
           sample_GetCollection sample_Initialize "a"
           (route.mkState None 1%nat)
           (route.mkState (Some (route.mkRouteTable "a/services/routes")) 2%nat)
           (route.mkRouteTable "a/services/routes")
           [route.Get; route.Locate "b"; route.Get] eq_refl).
Defined.

Lemma X13_witness :
  route.mkRouteTable "a/services/routes" = route.mkRouteTable "a/services/routes"
  /\ @None (route.error string) = None /\ @None (route.error string) = None.
Proof.
  apply (X13_route_table_singleton string string nat string
           sample_GetCollection sample_Initialize (route.mkState None 0%nat)
           [route.Locate "a"; route.Locate "a"; route.Locate "b"; route.Get]);
    vm_compute.
  - apply list_elem_of_further, list_elem_of_here.
  - apply list_elem_of_further, list_elem_of_further, list_elem_of_here.
Defined.

Lemma X14_witness :
  route.GetRouteTable string (route.mkState (@None (route.RouteTable string)) 1%nat)
  = ((None, Some (route.NotFound "route table not found")),
     route.mkState None 1%nat).
Proof.
  apply (X14_route_table_failure_not_cached string string nat string
           sample_GetCollection sample_Initialize "a" "a"
           (route.mkState None 0%nat) (route.mkState None 1%nat)
           (route.InitFailed "store unreachable")).
  reflexivity.
Defined.

(** ** What the strict reader accepts *)

Lemma parseUint_range (cs : list ascii) (lo hi x : Z) :
  parseUint cs lo hi = Some x -> lo <= x <= hi.
Proof.
  unfold parseUint. destruct (parseDigits cs 0) as [y|]; [|discriminate].
  destruct (Z.ltb_spec y lo); [discriminate|].
  destruct (Z.ltb_spec hi y); [discriminate|]. cbn. intros [= <-]. lia.
Qed.

Ltac destruct_matches :=
  repeat match goal with
         | |- context [match ?x with _ => _ end] => destruct x eqn:?
         end;
  try discriminate;
  repeat match goal with
         | H : parseUint _ _ _ = Some _ |- _ => apply parseUint_range in H
         end.

Lemma parseZone_range (s : string) (off : Z) :
  parseZone s = Some off -> off mod 60 = 0 /\ -86400 < off < 86400.
Proof.
  unfold parseZone.
  destruct s as [|sg [|h1 [|h2 [|cl [|m1 [|m2 [|x rest]]]]]]]; try discriminate;
    destruct_matches; intros [= <-];
    (split; [Z.to_euclidean_division_equations; lia | lia]).
Qed.

Ltac next_month :=
  match goal with
  | |- context [Calendar.daysBeforeMonth _ (?k + 1)] =>
      let k1 := eval vm_compute in (k + 1) in change (k + 1) with k1 in *
  end.

(** The fields the strict reader accepts name a second of the years 0000
    to 9999. *)
Lemma dateUnix_range (y m d hh mi ss : Z) :
  0 <= y <= 9999 -> 1 <= m <= 12 -> 1 <= d <= Calendar.daysIn m y ->
  0 <= hh <= 23 -> 0 <= mi <= 59 -> 0 <= ss <= 59 ->
  -62167219200 <= Calendar.dateUnix y m d hh mi ss < 253402300800.
Proof.
  intros Hy Hm Hd Hh Hmi Hs.
  rewrite (CalendarFacts.daysIn_months y m Hm) in Hd.
  pose proof (CalendarFacts.daysBeforeMonth_table y) as T. cbv zeta in T.
  pose proof (CalendarFacts.year_length y) as Hlen.
  assert (0 <= Calendar.daysBeforeMonth y m
          /\ Calendar.daysBeforeMonth y (m + 1)
             <= Calendar.daysBeforeYear (y + 1) - Calendar.daysBeforeYear y) as [Hlo Hhi].
  { assert (m = 1 \/ m = 2 \/ m = 3 \/ m = 4 \/ m = 5 \/ m = 6 \/ m = 7 \/ m = 8
            \/ m = 9 \/ m = 10 \/ m = 11 \/ m = 12) as Hc by lia.
    destruct (Calendar.isLeap y);
      repeat (destruct Hc as [Hc|Hc]; [subst m; next_month; lia|]);
      subst m; next_month; lia. }
  assert (0 <= Calendar.daysBeforeYear y
          /\ Calendar.daysBeforeYear (y + 1) <= 3652425) as [Hy0 Hy1]
      by (unfold Calendar.daysBeforeYear; Z.to_euclidean_division_equations; lia).
  unfold Calendar.dateUnix, Calendar.epochDay. lia.
Qed.

Lemma parseRFC3339_representable (s : string) (T : time_Time) :
  parseRFC3339 s = Some T -> rfc3339_representable T.
Proof.
  unfold parseRFC3339.
  do 19 (destruct s as [|? s]; [discriminate|]).
  repeat match goal with
         | |- match ?x with Some _ => _ | None => _ end = _ -> _ =>
             destruct x eqn:?; [|discriminate]
         | |- (if ?c then _ else _) = _ -> _ => destruct c; [|discriminate]
         end.
  intros [= <-].
  repeat match goal with
         | H : parseUint _ _ _ = Some _ |- _ => apply parseUint_range in H
         | H : parseZone _ = Some _ |- _ => apply parseZone_range in H
         end.
  match goal with
  | |- rfc3339_representable (mkTime (Calendar.dateUnix ?y ?m ?d ?hh ?mi ?ss - _) _) =>
      pose proof (dateUnix_range y m d hh mi ss) as Hr
  end.
  unfold rfc3339_representable. cbn [unixSec zoneOffset].
  split; [lia|]. tauto.
Qed.

(** X15. A timestamp the strict RFC 3339 reader accepts names a second of
    the years 0000 to 9999 in a zone of whole minutes under a day, so for a
    validity between [MinInt64 + 62167305600] and [MaxInt64 - 253402387200]
    the end of the window is the exact sum: a request with headers and a
    non-empty x-signature that decodes to [sig] is accepted exactly when the
    clock is before timestamp plus validity and [sig] is the recomputed
    MAC, whatever the general layout reader does. *)
Theorem X15_strict_timestamp_window_exact
    (parse_layout : string -> option time_Time) (now : time_Time)
    (v : validator) (r : http_Request) (secret : string)
    (T : time_Time) (sig : list byte) :
  parseRFC3339 (timeStr r) = Some T ->
  MinInt64 + 62167305600 <= validity v <= MaxInt64 - 253402387200 ->
  size (Header r) <> 0%nat -> sigStr r <> "" ->
  hex_DecodeString (sigStr r) = Some sig ->
  rfc3339_representable T
  /\ fits_int64 (Unix T + validity v)
  /\ (Validate parse_layout now v r secret = (true, None)
      <-> Unix now < Unix T + validity v /\ sig = expectedMAC secret r).
Proof.
  intros HT Hv Hn Hs Hd.
  pose proof (parseRFC3339_representable _ _ HT) as Hrep.
  assert (fits_int64 (Unix T + validity v)) as Hfit.
  { destruct Hrep as (Hr & _ & Hz). revert Hv.
    unfold fits_int64, MinInt64, MaxInt64, Unix. lia. }
  assert (timeStr r <> "") as Ht by (intros E; rewrite E in HT; discriminate).
  assert (time_Parse_RFC3339 parse_layout (timeStr r) = Some T) as Hp
      by (unfold time_Parse_RFC3339; now rewrite HT).
  split; [exact Hrep|]. split; [exact Hfit|].
  rewrite (Validate_parsed _ _ _ _ _ sig T Hn Hs Hd Ht Hp).
  rewrite (add64_exact _ _ Hfit), Z.geb_leb.
  destruct (Z.leb_spec (Unix T + validity v) (Unix now)).
  - split; [discriminate | lia].
  - destruct (hmac_Equal sig (expectedMAC secret r)) eqn:He; cbn [negb].
    + apply hmac_Equal_iff in He. tauto.
    + split; [discriminate|]. intros [_ E]. apply hmac_Equal_iff in E. congruence.
Qed.

(** The sample request, read by the strict reader and validated within a
    minute of its signing. *)
Lemma X15_witness :
  rfc3339_representable sample_time
  /\ fits_int64 (Unix sample_time + 60)
  /\ (Validate strict_only sample_time (NewValidator 60) sample_signed "supersecret"
      = (true, None)
      <-> Unix sample_time < Unix sample_time + 60
          /\ expectedMAC "supersecret" sample_signed
             = expectedMAC "supersecret" sample_signed).
Proof.
  apply (X15_strict_timestamp_window_exact strict_only sample_time
           (NewValidator 60) sample_signed "supersecret" sample_time
           (expectedMAC "supersecret" sample_signed)).
  - vm_compute. reflexivity.
  - vm_compute. split; discriminate.
  - vm_compute. discriminate.
  - vm_compute. discriminate.
  - exact (proj1 (proj2 (proj2 sample_signed_otherwise_valid))).
Defined.
